(** * Currency converter: conversion engine and history store

    A shallow embedding of [CurrencyConverter] (converter_core.py; the class
    in converter.py has the same method bodies) together with the properties
    of the conversion-and-history workflow.

    Python values are embedded as the JSON-shaped universe [pyval];
    operations that can raise return an [outcome]; the methods of the class
    run in a state-and-exception monad over the object's attributes, the
    history file, the log of HTTP requests and the clock.  The collaborators
    that are not part of the repository (remote service, system clock, the
    json module) are the fields of an [environment].

    What the methods print is left out: on the values that reach them, the
    [print] calls of the class do not raise and change nothing that is
    modelled.  The amount of a conversion is a float, as [main] passes it
    ([float(amount_input)]).  Text files are read as UTF-8, the encoding
    [open] takes by default on Linux and macOS. *)

From Stdlib Require Import ZArith List String Ascii Bool Lia.
From Stdlib Require Import PrimFloat SpecFloat FloatOps DecimalString.
From Stdlib Require Import Sorted Permutation.
Import ListNotations.

Local Open Scope string_scope.
Local Open Scope list_scope.

(** ** Python values *)

(** Values that [json.load] and [response.json()] produce, which are also
    all the values the converter ever stores.  A [str] is held as the bytes
    of its UTF-8 encoding; a [dict] as its items in insertion order. *)
#[warnings="-register-all"]
Inductive pyval : Type :=
| PNone
| PBool (b : bool)
| PInt (z : Z)
| PFloat (f : float)
| PStr (s : string)
| PList (l : list pyval)
| PDict (d : list (string * pyval)).

(** The exception classes that occur. [OSError] is also [IOError]. *)
Inductive exn : Type :=
| TypeError
| KeyError
| AttributeError
| OverflowError
| OSError
| JSONDecodeError
| UnicodeDecodeError
| RecursionError.

Inductive outcome (A : Type) : Type :=
| Ret (a : A)
| Raise (e : exn).
Arguments Ret {A} a.
Arguments Raise {A} e.

Definition obind {A B : Type} (o : outcome A) (k : A -> outcome B) : outcome B :=
  match o with
  | Ret a => k a
  | Raise e => Raise e
  end.

(** *** Dictionaries *)

Fixpoint dict_lookup (k : string) (d : list (string * pyval)) : option pyval :=
  match d with
  | [] => None
  | (k', v) :: d' => if String.eqb k k' then Some v else dict_lookup k d'
  end.

Definition dict_has (k : string) (d : list (string * pyval)) : bool :=
  match dict_lookup k d with
  | Some _ => true
  | None => false
  end.

(** [d[k] = v]: an existing key keeps its position, a new key goes last. *)
Fixpoint dict_set (k : string) (v : pyval) (d : list (string * pyval))
  : list (string * pyval) :=
  match d with
  | [] => [(k, v)]
  | (k', v') :: d' =>
      if String.eqb k k' then (k', v) :: d' else (k', v') :: dict_set k v d'
  end.

(** *** Truth value, membership, subscription *)

(** [bool(v)]. *)
Definition py_truthy (v : pyval) : bool :=
  match v with
  | PNone => false
  | PBool b => b
  | PInt z => negb (Z.eqb z 0)
  | PFloat f => negb (PrimFloat.eqb f 0%float)
  | PStr s => negb (String.eqb s "")
  | PList l => match l with [] => false | _ => true end
  | PDict d => match d with [] => false | _ => true end
  end.

(** [needle in hay] on two strings: substring test. *)
Fixpoint str_contains (needle hay : string) : bool :=
  String.prefix needle hay ||
  match hay with
  | EmptyString => false
  | String _ hay' => str_contains needle hay'
  end.

(** [PStr s == v]: a string equals only an equal string. *)
Definition str_eq_val (s : string) (v : pyval) : bool :=
  match v with
  | PStr s' => String.eqb s s'
  | _ => false
  end.

(** [s in v] for a string [s]. *)
Definition py_in (s : string) (v : pyval) : outcome bool :=
  match v with
  | PDict d => Ret (dict_has s d)
  | PList l => Ret (existsb (str_eq_val s) l)
  | PStr hay => Ret (str_contains s hay)
  | PNone | PBool _ | PInt _ | PFloat _ => Raise TypeError
  end.

(** [v[s]] for a string [s]. *)
Definition py_getitem (v : pyval) (s : string) : outcome pyval :=
  match v with
  | PDict d =>
      match dict_lookup s d with
      | Some x => Ret x
      | None => Raise KeyError
      end
  | _ => Raise TypeError
  end.

(** [v.get(s, default)]: only a dict has the method. *)
Definition py_get (v : pyval) (s : string) (default : pyval) : outcome pyval :=
  match v with
  | PDict d =>
      match dict_lookup s d with
      | Some x => Ret x
      | None => Ret default
      end
  | _ => Raise AttributeError
  end.

(** [v[s] = x] where [v[s]] has just been read: [v] is a dict. *)
Definition py_setitem (v : pyval) (s : string) (x : pyval) : outcome pyval :=
  match v with
  | PDict d => Ret (PDict (dict_set s x d))
  | _ => Raise TypeError
  end.

(** *** Numbers *)

(** [float(z)] for a Python int: nearest double, ties to even;
    [OverflowError] when the int is out of the range of a double. *)
Definition float_of_int (z : Z) : outcome float :=
  match binary_normalize prec emax z 0 false with
  | S754_infinity _ => Raise OverflowError
  | sf => Ret (SF2Prim sf)
  end.

(** [amount * rate] where [amount] is a float. *)
Definition float_mul (amount : float) (rate : pyval) : outcome pyval :=
  match rate with
  | PFloat r => Ret (PFloat (amount * r))
  | PInt z => obind (float_of_int z) (fun r => Ret (PFloat (amount * r)))
  | PBool b => Ret (PFloat (amount * (if b then 1 else 0)))
  | PNone | PStr _ | PList _ | PDict _ => Raise TypeError
  end.

(** *** Lists *)

(** [l[-n:]]. *)
Definition last_n {A : Type} (n : nat) (l : list A) : list A :=
  List.skipn (List.length l - n) l.

(** ** Text files *)

Definition byte_in (lo hi : N) (c : ascii) : bool :=
  ((lo <=? N_of_ascii c) && (N_of_ascii c <=? hi))%N.

Definition is_continuation : ascii -> bool := byte_in 128 191.

(** The second byte allowed after the lead byte of a three-byte sequence
    (no overlong forms, no surrogates). *)
Definition second_of_three (b0 b1 : ascii) : bool :=
  if byte_in 224 224 b0 then byte_in 160 191 b1
  else if byte_in 237 237 b0 then byte_in 128 159 b1
  else byte_in 225 239 b0 && is_continuation b1.

(** The second byte allowed after the lead byte of a four-byte sequence
    (no overlong forms, nothing above U+10FFFF). *)
Definition second_of_four (b0 b1 : ascii) : bool :=
  if byte_in 240 240 b0 then byte_in 144 191 b1
  else if byte_in 244 244 b0 then byte_in 128 143 b1
  else byte_in 241 243 b0 && is_continuation b1.

(** Whether the strict UTF-8 codec decodes the bytes. *)
Fixpoint utf8_valid (s : string) : bool :=
  match s with
  | EmptyString => true
  | String b0 s1 =>
      if byte_in 0 127 b0 then utf8_valid s1
      else
        match s1 with
        | EmptyString => false
        | String b1 s2 =>
            if byte_in 194 223 b0 then is_continuation b1 && utf8_valid s2
            else
              match s2 with
              | EmptyString => false
              | String b2 s3 =>
                  if byte_in 224 239 b0 then
                    second_of_three b0 b1 && is_continuation b2 && utf8_valid s3
                  else
                    match s3 with
                    | EmptyString => false
                    | String b3 s4 =>
                        second_of_four b0 b1 && is_continuation b2
                          && is_continuation b3 && utf8_valid s4
                    end
              end
        end
  end.

Definition CR : ascii := ascii_of_N 13.
Definition LF : ascii := ascii_of_N 10.

(** Text mode on input turns ["\r\n"] and a lone ["\r"] into ["\n"]. *)
Fixpoint universal_newlines (s : string) : string :=
  match s with
  | EmptyString => EmptyString
  | String c s' =>
      if Ascii.eqb c CR then
        String LF
          match s' with
          | EmptyString => EmptyString
          | String c' s'' =>
              if Ascii.eqb c' LF then universal_newlines s''
              else universal_newlines s'
          end
      else String c (universal_newlines s')
  end.

(** [f.read()] on a file opened with [open(path, 'r')], the text encoding
    being UTF-8. *)
Definition read_text (bytes : string) : outcome string :=
  if utf8_valid bytes then Ret (universal_newlines bytes)
  else Raise UnicodeDecodeError.

(** ** Storage *)

(** The history file: absent, or present with its bytes; a present file
    may refuse to be opened for reading (no permission, a directory). *)
Inductive file_state : Type :=
| Absent
| Present (readable : bool) (bytes : string).

(** What the device does to the next [open(path, 'w')] and the writes after
    it: all goes well, the open is refused, or the device fails after [n]
    bytes. *)
Inductive write_behaviour : Type :=
| WriteOk
| OpenRefused
| WriteFault (n : nat).

Record disk : Type := {
  history_file : file_state;
  on_write : write_behaviour
}.

(** [os.path.exists(self.history_file)]. *)
Definition path_exists (d : disk) : bool :=
  match history_file d with
  | Absent => false
  | Present _ _ => true
  end.

(** [open(self.history_file, 'r')], giving the bytes to read. *)
Definition open_read (d : disk) : outcome string :=
  match history_file d with
  | Present true bytes => Ret bytes
  | Present false _ | Absent => Raise OSError
  end.

Definition readable_after_write (f : file_state) : bool :=
  match f with
  | Absent => true
  | Present r _ => r
  end.

(** [with open(self.history_file, 'w') as f: f.write(text)]: opening
    truncates the file, a refused open leaves it as it was. *)
Definition write_text (d : disk) (text : string) : outcome unit * disk :=
  let r := readable_after_write (history_file d) in
  match on_write d with
  | WriteOk =>
      (Ret tt, {| history_file := Present r text; on_write := on_write d |})
  | OpenRefused => (Raise OSError, d)
  | WriteFault n =>
      (Raise OSError,
       {| history_file := Present r (substring 0 n text);
          on_write := on_write d |})
  end.

(** ** Collaborators *)

(** The two requests the converter issues. *)
Inductive request : Type :=
| Symbols
| Latest (base target : string).

Definition base_url : string := "https://api.exchangerate.host".

Definition url_of (r : request) : string :=
  match r with
  | Symbols => base_url ++ "/symbols"
  | Latest base target =>
      base_url ++ "/latest?base=" ++ base ++ "&symbols=" ++ target
  end.

(** What [requests.get(url)], [raise_for_status()] and [response.json()]
    come to: one of them raises a [requests.RequestException] (no
    connection, an error status, a body that is not JSON), or the decoded
    body is there. *)
Inductive http_result : Type :=
| RequestException
| Json (data : pyval).

(** What lies outside the repository: the remote service (its answer to the
    [n]-th request of the process, by URL), the clock
    ([datetime.now().isoformat()] at its [n]-th reading) and the json module
    ([json.dumps(v, indent=2)] and [json.loads]). *)
Record environment : Type := {
  remote : nat -> string -> http_result;
  now_isoformat : nat -> string;
  json_dumps : pyval -> string;
  json_loads : string -> outcome pyval
}.

(** ** State *)

(** The attributes of the converter object that change, and the part of
    the world it acts on. *)
Record state : Type := {
  available_currencies : pyval;
  history : pyval;
  storage : disk;
  requests_made : list request;
  clock_reads : nat
}.

Definition set_available_currencies (v : pyval) (s : state) : state :=
  {| available_currencies := v;
     history := history s;
     storage := storage s;
     requests_made := requests_made s;
     clock_reads := clock_reads s |}.

Definition set_history (v : pyval) (s : state) : state :=
  {| available_currencies := available_currencies s;
     history := v;
     storage := storage s;
     requests_made := requests_made s;
     clock_reads := clock_reads s |}.

Definition set_storage (d : disk) (s : state) : state :=
  {| available_currencies := available_currencies s;
     history := history s;
     storage := d;
     requests_made := requests_made s;
     clock_reads := clock_reads s |}.

(** Computations that read and change the state and may raise; the state
    reached when an exception leaves is kept. *)
Definition M (A : Type) : Type := state -> outcome A * state.

Definition ret {A : Type} (a : A) : M A := fun s => (Ret a, s).

Definition bind {A B : Type} (m : M A) (k : A -> M B) : M B :=
  fun s =>
    match m s with
    | (Ret a, s') => k a s'
    | (Raise e, s') => (Raise e, s')
    end.

Definition lift {A : Type} (o : outcome A) : M A := fun s => (o, s).

Definition gets {A : Type} (f : state -> A) : M A := fun s => (Ret (f s), s).

Definition modify (f : state -> state) : M unit := fun s => (Ret tt, f s).

Declare Scope py_scope.
Delimit Scope py_scope with py.
Notation "x <- m ;; k" := (bind m (fun x => k))
  (at level 61, m at next level, right associativity) : py_scope.
Notation "m ;;; k" := (bind m (fun _ => k))
  (at level 61, right associativity) : py_scope.
Local Open Scope py_scope.

(** [requests.get(url)] with what follows it inside the [try]. *)
Definition requests_get (E : environment) (r : request) : M http_result :=
  fun s =>
    (Ret (remote E (List.length (requests_made s)) (url_of r)),
     {| available_currencies := available_currencies s;
        history := history s;
        storage := storage s;
        requests_made := requests_made s ++ [r];
        clock_reads := clock_reads s |}).

(** [datetime.now().isoformat()]. *)
Definition datetime_now (E : environment) : M string :=
  fun s =>
    (Ret (now_isoformat E (clock_reads s)),
     {| available_currencies := available_currencies s;
        history := history s;
        storage := storage s;
        requests_made := requests_made s;
        clock_reads := S (clock_reads s) |}).

(** ** The history store *)

Definition empty_history : pyval := PDict [("conversions", PList [])].

(** [json.load(f)], which is [json.loads(f.read())]. *)
Definition json_load (E : environment) (bytes : string) : outcome pyval :=
  obind (read_text bytes) (json_loads E).

(** [_load_history]: the [except] clause names [json.JSONDecodeError] and
    [IOError]; any other exception leaves the method. *)
Definition _load_history (E : environment) (d : disk) : outcome pyval :=
  if path_exists d then
    match obind (open_read d) (json_load E) with
    | Ret v => Ret v
    | Raise JSONDecodeError | Raise OSError => Ret empty_history
    | Raise e => Raise e
    end
  else Ret empty_history.

(** [_save_history]: an [IOError] ends in a warning. *)
Definition _save_history (E : environment) : M unit :=
  fun s =>
    match write_text (storage s) (json_dumps E (history s)) with
    | (Ret _, d) => (Ret tt, set_storage d s)
    | (Raise OSError, d) => (Ret tt, set_storage d s)
    | (Raise e, d) => (Raise e, set_storage d s)
    end.

(** [__init__]: the attributes of a fresh converter over the disk [d]. *)
Definition init (E : environment) (d : disk) : outcome state :=
  obind (_load_history E d) (fun h =>
  Ret {| available_currencies := PNone;
         history := h;
         storage := d;
         requests_made := [];
         clock_reads := 0 |}).

(** ** The rate source client *)

(** [get_available_currencies]. *)
Definition get_available_currencies (E : environment) : M pyval :=
  cached <- gets available_currencies ;;
  if py_truthy cached then ret cached
  else
    response <- requests_get E Symbols ;;
    match response with
    | RequestException => ret PNone
    | Json data =>
        success <- lift (py_get data "success" (PBool false)) ;;
        if py_truthy success then
          has_symbols <- lift (py_in "symbols" data) ;;
          if has_symbols then
            symbols <- lift (py_getitem data "symbols") ;;
            modify (set_available_currencies symbols) ;;;
            gets available_currencies
          else ret PNone
        else ret PNone
    end.

(** [validate_currency]. *)
Definition validate_currency (E : environment) (currency_code : string) : M bool :=
  currencies <- get_available_currencies E ;;
  if negb (py_truthy currencies) then ret false
  else lift (py_in currency_code currencies).

(** [get_exchange_rate]. *)
Definition get_exchange_rate (E : environment) (base_currency target_currency : string)
  : M pyval :=
  response <- requests_get E (Latest base_currency target_currency) ;;
  match response with
  | RequestException => ret PNone
  | Json data =>
      success <- lift (py_get data "success" (PBool true)) ;;
      if negb (py_truthy success) then ret PNone
      else
        has_rates <- lift (py_in "rates" data) ;;
        if has_rates then
          rates <- lift (py_getitem data "rates") ;;
          has_target <- lift (py_in target_currency rates) ;;
          if has_target then lift (py_getitem rates target_currency)
          else ret PNone
        else ret PNone
  end.

(** ** The conversion engine *)

Definition make_record (base target : string) (amount converted rate : pyval)
    (timestamp : string) : pyval :=
  PDict [("base", PStr base);
         ("target", PStr target);
         ("amount", amount);
         ("converted", converted);
         ("rate", rate);
         ("timestamp", PStr timestamp)].

(** The three statements under "Add to history":
    [self.history["conversions"].append(result)], then the cut to
    [self.history["conversions"][-10:]] when there are more than 10.
    Only a list has [append]. *)
Definition add_to_history (h result : pyval) : outcome pyval :=
  obind (py_getitem h "conversions") (fun conversions =>
  match conversions with
  | PList l =>
      let appended := l ++ [result] in
      py_setitem h "conversions"
        (PList (if Nat.ltb 10 (List.length appended) then last_n 10 appended
                else appended))
  | _ => Raise AttributeError
  end).

(** The body of the loop over the target currencies; [results] is the
    list built so far. *)
Definition convert_one (E : environment) (base_currency : string) (amount : float)
    (target_currency : string) (results : list pyval) : M (list pyval) :=
  if String.eqb base_currency target_currency then
    timestamp <- datetime_now E ;;
    ret (results ++
         [make_record base_currency target_currency
            (PFloat amount) (PFloat amount) (PFloat 1) timestamp])
  else
    rate <- get_exchange_rate E base_currency target_currency ;;
    match rate with
    | PNone => ret results
    | _ =>
        converted_amount <- lift (float_mul amount rate) ;;
        timestamp <- datetime_now E ;;
        let result :=
          make_record base_currency target_currency
            (PFloat amount) converted_amount rate timestamp in
        h <- gets history ;;
        h' <- lift (add_to_history h result) ;;
        modify (set_history h') ;;;
        _save_history E ;;;
        ret (results ++ [result])
    end.

Fixpoint for_each_target (E : environment) (base_currency : string) (amount : float)
    (target_currencies : list string) (results : list pyval) : M (list pyval) :=
  match target_currencies with
  | [] => ret results
  | target_currency :: rest =>
      results' <- convert_one E base_currency amount target_currency results ;;
      for_each_target E base_currency amount rest results'
  end.

(** [[c for c in target_currencies if not self.validate_currency(c)]]. *)
Fixpoint invalid_targets (E : environment) (target_currencies : list string)
  : M (list string) :=
  match target_currencies with
  | [] => ret []
  | c :: rest =>
      valid <- validate_currency E c ;;
      invalid <- invalid_targets E rest ;;
      ret (if valid then invalid else c :: invalid)
  end.

(** [convert_currency]; the amount is the float the caller parsed. *)
Definition convert_currency (E : environment) (base_currency : string)
    (target_currencies : list string) (amount : float) : M (list pyval) :=
  base_valid <- validate_currency E base_currency ;;
  if negb base_valid then ret []
  else
    invalid <- invalid_targets E target_currencies ;;
    match invalid with
    | [] => for_each_target E base_currency amount target_currencies []
    | _ :: _ =>
        let valid_targets :=
          filter (fun c => negb (existsb (String.eqb c) invalid))
            target_currencies in
        match valid_targets with
        | [] => ret []
        | _ :: _ => for_each_target E base_currency amount valid_targets []
        end
    end.

(** ** A json module to run with

    An executable reading of Python's [json.loads] and
    [json.dumps(v, indent=2)], to instantiate the [environment] on concrete
    files.  The properties of the converter below hold for every
    environment and do not depend on it. *)
Module Json.

Local Open Scope string_scope.

Definition ch (c : ascii) (x : ascii) : bool := Ascii.eqb c x.

Definition DQUOTE : ascii := ascii_of_N 34.
Definition BACKSLASH : ascii := ascii_of_N 92.
Definition TAB : ascii := ascii_of_N 9.
Definition BS : ascii := ascii_of_N 8.
Definition FF : ascii := ascii_of_N 12.

Definition is_ws (c : ascii) : bool :=
  ch c " " || ch c TAB || ch c LF || ch c CR.

Fixpoint skip_ws (s : string) : string :=
  match s with
  | EmptyString => s
  | String c s' => if is_ws c then skip_ws s' else s
  end.

Definition is_digit : ascii -> bool := byte_in 48 57.

(** The longest prefix of decimal digits, and what follows it. *)
Fixpoint take_digits (s : string) : string * string :=
  match s with
  | EmptyString => (EmptyString, s)
  | String c s' =>
      if is_digit c then
        let (ds, rest) := take_digits s' in (String c ds, rest)
      else (EmptyString, s)
  end.

Fixpoint digits_value (ds : string) (acc : N) : N :=
  match ds with
  | EmptyString => acc
  | String c ds' => digits_value ds' (10 * acc + (N_of_ascii c - 48))%N
  end.

Definition hex_value (c : ascii) : option N :=
  let n := N_of_ascii c in
  if byte_in 48 57 c then Some (n - 48)%N
  else if byte_in 97 102 c then Some (n - 87)%N
  else if byte_in 65 70 c then Some (n - 55)%N
  else None.

Definition hex4 (a b c d : ascii) : option N :=
  match hex_value a, hex_value b, hex_value c, hex_value d with
  | Some x, Some y, Some z, Some w => Some (((x * 16 + y) * 16 + z) * 16 + w)%N
  | _, _, _, _ => None
  end.

(** The UTF-8 bytes of a code point (a lone surrogate gets the three
    bytes its number asks for). *)
Definition utf8_encode (cp : N) : string :=
  let b (n : N) := ascii_of_N n in
  (if cp <? 128 then String (b cp) EmptyString
   else if cp <? 2048 then
     String (b (192 + cp / 64)) (String (b (128 + cp mod 64)) EmptyString)
   else if cp <? 65536 then
     String (b (224 + cp / 4096))
       (String (b (128 + (cp / 64) mod 64))
          (String (b (128 + cp mod 64)) EmptyString))
   else
     String (b (240 + cp / 262144))
       (String (b (128 + (cp / 4096) mod 64))
          (String (b (128 + (cp / 64) mod 64))
             (String (b (128 + cp mod 64)) EmptyString))))%N.

Definition is_high_surrogate (u : N) : bool := ((55296 <=? u) && (u <=? 56319))%N.
Definition is_low_surrogate (u : N) : bool := ((56320 <=? u) && (u <=? 57343))%N.

Definition flush (pending : option N) : string :=
  match pending with
  | Some hi => utf8_encode hi
  | None => EmptyString
  end.

(** A string after its opening quote: the decoded text and what follows
    the closing quote.  [pending] is a high surrogate read from a
    [\uXXXX] escape that may still be joined with a low one. *)
Fixpoint scan_string (s : string) (pending : option N) (acc : string)
  : option (string * string) :=
  match s with
  | EmptyString => None
  | String c s1 =>
      if ch c DQUOTE then Some (acc ++ flush pending, s1)
      else if ch c BACKSLASH then
        match s1 with
        | EmptyString => None
        | String e s2 =>
            let simple (x : ascii) :=
              scan_string s2 None (acc ++ flush pending ++ String x EmptyString) in
            if ch e DQUOTE then simple DQUOTE
            else if ch e BACKSLASH then simple BACKSLASH
            else if ch e "/" then simple "/"%char
            else if ch e "b" then simple BS
            else if ch e "f" then simple FF
            else if ch e "n" then simple LF
            else if ch e "r" then simple CR
            else if ch e "t" then simple TAB
            else if ch e "u" then
              match s2 with
              | String h1 (String h2 (String h3 (String h4 s6))) =>
                  match hex4 h1 h2 h3 h4 with
                  | None => None
                  | Some u =>
                      match pending with
                      | Some hi =>
                          if is_low_surrogate u then
                            scan_string s6 None
                              (acc ++ utf8_encode
                                 (65536 + (hi - 55296) * 1024 + (u - 56320))%N)
                          else if is_high_surrogate u then
                            scan_string s6 (Some u) (acc ++ utf8_encode hi)
                          else
                            scan_string s6 None
                              (acc ++ utf8_encode hi ++ utf8_encode u)
                      | None =>
                          if is_high_surrogate u then scan_string s6 (Some u) acc
                          else scan_string s6 None (acc ++ utf8_encode u)
                      end
                  end
              | _ => None
              end
            else None
        end
      else if byte_in 0 31 c then None
      else scan_string s1 None (acc ++ flush pending ++ String c EmptyString)
  end.

(** [float(text)] for the decimal [(-1)^neg * m * 10^e10]: the nearest
    double, ties to even, an infinity when out of range. *)
Definition float_of_decimal (neg : bool) (m : N) (e10 : Z) : float :=
  match m with
  | N0 => if neg then neg_zero else zero
  | Npos p =>
      match e10 with
      | Zneg k =>
          SF2Prim (SFdiv prec emax (S754_finite neg p 0)
                     (S754_finite false (Pos.pow 10 k) 0))
      | _ =>
          SF2Prim (binary_normalize prec emax
                     ((if neg then Zneg p else Zpos p) * 10 ^ e10)%Z 0 false)
      end
  end.

Fixpoint drop (n : nat) (s : string) : string :=
  match n, s with
  | S n', String _ s' => drop n' s'
  | _, _ => s
  end.

(** The fraction [.ddd] at the head of [s], if there is one. *)
Definition take_fraction (s : string) : string * string :=
  match s with
  | String c s' =>
      if ch c "." then
        match take_digits s' with
        | (EmptyString, _) => (EmptyString, s)
        | (ds, rest) => (ds, rest)
        end
      else (EmptyString, s)
  | EmptyString => (EmptyString, s)
  end.

(** The exponent [e±ddd] at the head of [s], if there is one. *)
Definition take_exponent (s : string) : option Z * string :=
  match s with
  | String c s' =>
      if ch c "e" || ch c "E" then
        let (neg, s'') :=
          match s' with
          | String sg t =>
              if ch sg "-" then (true, t)
              else if ch sg "+" then (false, t)
              else (false, s')
          | EmptyString => (false, s')
          end in
        match take_digits s'' with
        | (EmptyString, _) => (None, s)
        | (ds, rest) =>
            let v := Z.of_N (digits_value ds 0) in
            (Some (if neg then (- v)%Z else v), rest)
        end
      else (None, s)
  | EmptyString => (None, s)
  end.

(** A number: an optional minus sign, an integer part without a leading
    zero (or a single zero), an optional fraction and an optional exponent;
    it is an int when it has neither fraction nor exponent.  Also [NaN],
    [Infinity] and [-Infinity]. *)
Definition scan_number (s : string) : option (pyval * string) :=
  if String.prefix "NaN" s then Some (PFloat nan, drop 3 s)
  else if String.prefix "Infinity" s then Some (PFloat infinity, drop 8 s)
  else if String.prefix "-Infinity" s then Some (PFloat neg_infinity, drop 9 s)
  else
    let (neg, s1) :=
      match s with
      | String c s' => if ch c "-" then (true, s') else (false, s)
      | EmptyString => (false, s)
      end in
    let (int_part, s2) :=
      match s1 with
      | String c s' => if ch c "0" then ("0", s') else take_digits s1
      | EmptyString => (EmptyString, s1)
      end in
    match int_part with
    | EmptyString => None
    | _ =>
        let (frac, s3) := take_fraction s2 in
        let (exp, s4) := take_exponent s3 in
        match frac, exp with
        | EmptyString, None =>
            let n := Z.of_N (digits_value int_part 0) in
            Some (PInt (if neg then (- n)%Z else n), s4)
        | _, _ =>
            let e := match exp with Some e => e | None => 0%Z end in
            Some (PFloat
                    (float_of_decimal neg (digits_value (int_part ++ frac) 0)
                       (e - Z.of_nat (String.length frac))),
                  s4)
        end
    end.

(** One value at the head of [s], and what follows it.  The fuel bounds
    the number of values read. *)
Fixpoint scan_value (fuel : nat) (s : string) : option (pyval * string) :=
  match fuel with
  | O => None
  | S fuel' =>
      match s with
      | EmptyString => None
      | String c s' =>
          if ch c DQUOTE then
            match scan_string s' None EmptyString with
            | Some (str, rest) => Some (PStr str, rest)
            | None => None
            end
          else if ch c "{" then
            match skip_ws s' with
            | String c' rest =>
                if ch c' "}" then Some (PDict [], rest)
                else scan_members fuel' (skip_ws s') []
            | EmptyString => None
            end
          else if ch c "[" then
            match skip_ws s' with
            | String c' rest =>
                if ch c' "]" then Some (PList [], rest)
                else scan_elements fuel' (skip_ws s') []
            | EmptyString => None
            end
          else if String.prefix "null" s then Some (PNone, drop 4 s)
          else if String.prefix "true" s then Some (PBool true, drop 4 s)
          else if String.prefix "false" s then Some (PBool false, drop 5 s)
          else scan_number s
      end
  end

with scan_elements (fuel : nat) (s : string) (acc : list pyval)
  : option (pyval * string) :=
  match fuel with
  | O => None
  | S fuel' =>
      match scan_value fuel' s with
      | None => None
      | Some (v, rest) =>
          match skip_ws rest with
          | String c rest' =>
              if ch c "," then scan_elements fuel' (skip_ws rest') (acc ++ [v])%list
              else if ch c "]" then Some (PList (acc ++ [v])%list, rest')
              else None
          | EmptyString => None
          end
      end
  end

with scan_members (fuel : nat) (s : string) (acc : list (string * pyval))
  : option (pyval * string) :=
  match fuel with
  | O => None
  | S fuel' =>
      match s with
      | EmptyString => None
      | String q s' =>
          if ch q DQUOTE then
            match scan_string s' None EmptyString with
            | None => None
            | Some (key, rest) =>
                match skip_ws rest with
                | String c rest1 =>
                    if ch c ":" then
                      match scan_value fuel' (skip_ws rest1) with
                      | None => None
                      | Some (v, rest2) =>
                          match skip_ws rest2 with
                          | String c' rest3 =>
                              if ch c' "," then
                                scan_members fuel' (skip_ws rest3)
                                  (dict_set key v acc)
                              else if ch c' "}" then
                                Some (PDict (dict_set key v acc), rest3)
                              else None
                          | EmptyString => None
                          end
                      end
                    else None
                | EmptyString => None
                end
            end
          else None
      end
  end.

(** [json.loads(text)]. *)
Definition loads (text : string) : outcome pyval :=
  match scan_value (S (String.length text)) (skip_ws text) with
  | Some (v, rest) =>
      match skip_ws rest with
      | EmptyString => Ret v
      | String _ _ => Raise JSONDecodeError
      end
  | None => Raise JSONDecodeError
  end.

(** *** Writing *)

Definition string_of_N (n : N) : string :=
  DecimalString.NilZero.string_of_uint (N.to_uint n).

Definition string_of_Z (z : Z) : string :=
  match z with
  | Zneg p => "-" ++ string_of_N (Npos p)
  | _ => string_of_N (Z.to_N z)
  end.

Definition hex_digit (n : N) : ascii :=
  (if n <? 10 then ascii_of_N (48 + n) else ascii_of_N (87 + n))%N.

Definition u_escape (u : N) : string :=
  String BACKSLASH
    (String "u"
       (String (hex_digit (u / 4096))
          (String (hex_digit ((u / 256) mod 16))
             (String (hex_digit ((u / 16) mod 16))
                (String (hex_digit (u mod 16)) EmptyString)))))%N.

(** How [ensure_ascii] writes one code point. *)
Definition escape_code_point (cp : N) : string :=
  let two (x : ascii) := String BACKSLASH (String x EmptyString) in
  (if cp =? 34 then two DQUOTE
   else if cp =? 92 then two BACKSLASH
   else if cp =? 10 then two "n"%char
   else if cp =? 13 then two "r"%char
   else if cp =? 9 then two "t"%char
   else if cp =? 8 then two "b"%char
   else if cp =? 12 then two "f"%char
   else if (32 <=? cp) && (cp <=? 126) then String (ascii_of_N cp) EmptyString
   else if cp <? 65536 then u_escape cp
   else
     u_escape (55296 + (cp - 65536) / 1024)
       ++ u_escape (56320 + (cp - 65536) mod 1024))%N.

(** The code point at the head of UTF-8 text, and what follows it. *)
Definition next_code_point (b0 : ascii) (s : string) : N * string :=
  let n0 := N_of_ascii b0 in
  let low (c : ascii) := (N_of_ascii c mod 64)%N in
  match s with
  | String b1 (String b2 (String b3 s4)) =>
      if (240 <=? n0)%N then
        ((((n0 mod 8) * 64 + low b1) * 64 + low b2) * 64 + low b3, s4)%N
      else if (224 <=? n0)%N then
        (((n0 mod 16) * 64 + low b1) * 64 + low b2, String b3 s4)%N
      else if (192 <=? n0)%N then
        ((n0 mod 32) * 64 + low b1, String b2 (String b3 s4))%N
      else (n0, s)
  | String b1 (String b2 s3) =>
      if (224 <=? n0)%N then (((n0 mod 16) * 64 + low b1) * 64 + low b2, s3)%N
      else if (192 <=? n0)%N then ((n0 mod 32) * 64 + low b1, String b2 s3)%N
      else (n0, s)
  | String b1 s2 =>
      if (192 <=? n0)%N then ((n0 mod 32) * 64 + low b1, s2)%N else (n0, s)
  | EmptyString => (n0, s)
  end.

Fixpoint escape_text (fuel : nat) (s : string) : string :=
  match fuel, s with
  | S fuel', String b0 s1 =>
      let (cp, rest) := next_code_point b0 s1 in
      escape_code_point cp ++ escape_text fuel' rest
  | _, _ => EmptyString
  end.

(** A string as [json.dumps] writes it. *)
Definition dump_string (s : string) : string :=
  String DQUOTE (escape_text (String.length s) s ++ String DQUOTE EmptyString).

(** **** [float.__repr__]: the shortest decimal that reads back *)

Fixpoint zeros (n : nat) : string :=
  match n with
  | O => EmptyString
  | S n' => String "0" (zeros n')
  end.

(** [b^z], and 1 when [z] is negative. *)
Definition pow_nonneg (b z : Z) : Z := (b ^ Z.max 0 z)%Z.

(** The largest [k] with [10^k <= num/den], looked for upwards from
    [k]. *)
Fixpoint decimal_exponent (fuel : nat) (num den : Z) (k : Z) : Z :=
  match fuel with
  | O => k
  | S fuel' =>
      if (num * pow_nonneg 10 (- (k + 1)) <? den * pow_nonneg 10 (k + 1))%Z then k
      else decimal_exponent fuel' num den (k + 1)%Z
  end.

(** A [k] with [10^k <= num/den] that is close to the largest: from the
    numbers of bits, [num/den > 2^(log2 num - log2 den - 1)], and
    [log10 2 = 0.30102...]. *)
Definition decimal_exponent_below (num den : Z) : Z :=
  ((Z.log2 num - Z.log2 den - 1) * 30102 / 100000 - 1)%Z.

(** The exact quotient [num * 10^t / den] as floor and rounded to nearest,
    ties to even. *)
Definition scaled (num den t : Z) : Z * Z :=
  let n := (num * pow_nonneg 10 t)%Z in
  let d := (den * pow_nonneg 10 (- t))%Z in
  let q := (n / d)%Z in
  let r := (n mod d)%Z in
  let up :=
    match (2 * r ?= d)%Z with
    | Gt => true
    | Eq => Z.odd q
    | Lt => false
    end in
  (q, if up then (q + 1)%Z else q).

(** The [p]-digit decimals next to [num/den]: the nearest first, then the
    one on the other side; each as digits and the exponent of the first
    digit. *)
Definition candidates (num den k : Z) (p : nat) : list (Z * Z) :=
  let t := (Z.of_nat p - 1 - k)%Z in
  let (lo, near) := scaled num den t in
  let other := if (near =? lo)%Z then (lo + 1)%Z else lo in
  let norm (q : Z) :=
    if (q =? 10 ^ Z.of_nat p)%Z then (10 ^ (Z.of_nat p - 1), k + 1)%Z
    else (q, k) in
  [norm near; norm other].

Definition reads_back (f : float) (p : nat) (c : Z * Z) : bool :=
  let (q, k) := c in
  (0 <? q)%Z &&
  PrimFloat.eqb (float_of_decimal false (Z.to_N q) (k - Z.of_nat p + 1)) f.

(** The digits and the exponent of the first digit of the shortest decimal
    that reads back as the positive finite [f = num/den], trying
    [p], [p+1], ... digits. *)
Fixpoint shortest (fuel : nat) (f : float) (num den k : Z) (p : nat) : Z * Z :=
  match fuel with
  | O => (fst (scaled num den (16 - k)), k)
  | S fuel' =>
      match filter (reads_back f p) (candidates num den k p) with
      | c :: _ => c
      | [] => shortest fuel' f num den k (S p)
      end
  end.

(** The layout of [repr]: positional when the decimal point falls within
    [-4 < decpt <= 16], with an exponent otherwise. *)
Definition layout (digits : string) (k : Z) : string :=
  let decpt := (k + 1)%Z in
  let n := Z.of_nat (String.length digits) in
  if ((-4 <? decpt) && (decpt <=? 16))%Z then
    if (decpt <=? 0)%Z then "0." ++ zeros (Z.to_nat (- decpt)) ++ digits
    else if (n <=? decpt)%Z then digits ++ zeros (Z.to_nat (decpt - n)) ++ ".0"
    else substring 0 (Z.to_nat decpt) digits ++ "."
           ++ drop (Z.to_nat decpt) digits
  else
    let mantissa :=
      match digits with
      | String d EmptyString => digits
      | String d rest => String d ("." ++ rest)
      | EmptyString => digits
      end in
    let e := string_of_N (Z.to_N (Z.abs k)) in
    mantissa ++ "e" ++ (if (k <? 0)%Z then "-" else "+")
      ++ (if (Z.abs k <? 10)%Z then "0" else "") ++ e.

Definition float_repr (f : float) : string :=
  match Prim2SF f with
  | S754_nan => "NaN"
  | S754_infinity false => "Infinity"
  | S754_infinity true => "-Infinity"
  | S754_zero false => "0.0"
  | S754_zero true => "-0.0"
  | S754_finite sign m e =>
      let num := (Zpos m * pow_nonneg 2 e)%Z in
      let den := pow_nonneg 2 (- e) in
      let k := decimal_exponent 8 num den (decimal_exponent_below num den) in
      let (q, k') := shortest 17 (abs f) num den k 1 in
      (if sign then "-" else "") ++ layout (string_of_N (Z.to_N q)) k'
  end.

(** **** Values *)

Fixpoint join (sep : string) (items : list string) : string :=
  match items with
  | [] => EmptyString
  | [x] => x
  | x :: rest => x ++ sep ++ join sep rest
  end.

Fixpoint spaces (n : nat) : string :=
  match n with
  | O => EmptyString
  | S n' => String " " (spaces n')
  end.

Definition newline_indent (level : nat) : string :=
  String LF (spaces (2 * level)).

(** [json.dumps(v, indent=2)] for a value nested [level] containers
    deep. *)
Fixpoint dump_at (level : nat) (v : pyval) : string :=
  match v with
  | PNone => "null"
  | PBool true => "true"
  | PBool false => "false"
  | PInt z => string_of_Z z
  | PFloat f => float_repr f
  | PStr s => dump_string s
  | PList [] => "[]"
  | PList l =>
      "[" ++ newline_indent (S level)
        ++ join ("," ++ newline_indent (S level)) (map (dump_at (S level)) l)
        ++ newline_indent level ++ "]"
  | PDict [] => "{}"
  | PDict d =>
      "{" ++ newline_indent (S level)
        ++ join ("," ++ newline_indent (S level))
             (map (fun kv : string * pyval =>
                     dump_string (fst kv) ++ ": " ++ dump_at (S level) (snd kv))
                d)
        ++ newline_indent level ++ "}"
  end.

Definition dumps (v : pyval) : string := dump_at 0 v.

End Json.

(** ** A service, a clock and disks to run with *)

Definition currency (code description : string) : string * pyval :=
  (code, PDict [("description", PStr description); ("code", PStr code)]).

Definition demo_symbols : pyval :=
  PDict [currency "USD" "United States Dollar";
         currency "EUR" "Euro";
         currency "GBP" "British Pound Sterling"].

Definition symbols_response : http_result :=
  Json (PDict [("success", PBool true); ("symbols", demo_symbols)]).

Definition latest_response (base target : string) (rate : pyval) : http_result :=
  Json (PDict [("success", PBool true);
               ("base", PStr base);
               ("date", PStr "2024-05-01");
               ("rates", PDict [(target, rate)])]).

(** The answer to a rate request from [base] to a target of the table;
    a request for anything else fails. *)
Fixpoint quote (base : string) (quotes : list (string * pyval)) (url : string)
  : http_result :=
  match quotes with
  | [] => RequestException
  | (target, rate) :: rest =>
      if String.eqb url (url_of (Latest base target))
      then latest_response base target rate
      else quote base rest url
  end.

Definition demo_service (base : string) (quotes : list (string * pyval))
  : nat -> string -> http_result :=
  fun _ url =>
    if String.eqb url (url_of Symbols) then symbols_response
    else quote base quotes url.

Definition demo_clock (n : nat) : string :=
  "2024-05-01T12:00:0" ++ Json.string_of_N (N.of_nat n) ++ ".000000".

Definition demo_env (base : string) (quotes : list (string * pyval)) : environment :=
  {| remote := demo_service base quotes;
     now_isoformat := demo_clock;
     json_dumps := Json.dumps;
     json_loads := Json.loads |}.

Definition disk_with (f : file_state) : disk :=
  {| history_file := f; on_write := WriteOk |}.

(** A converter that has just been constructed over an empty directory. *)
Definition fresh_converter : state :=
  {| available_currencies := PNone;
     history := empty_history;
     storage := disk_with Absent;
     requests_made := [];
     clock_reads := 0 |}.

(** The record of a conversion of 100 USD to EUR at the rate 0.5, the
    clock being read for the [n]-th time. *)
Definition demo_record (n : nat) : pyval :=
  make_record "USD" "EUR" (PFloat 100) (PFloat 50) (PFloat 0.5) (demo_clock n).

Definition demo_records (from count : nat) : list pyval :=
  map demo_record (List.seq from count).

(** A converter whose history holds the records [from], ..., [from +
    count - 1], over an empty directory. *)
Definition converter_with (from count : nat) : state :=
  set_history (PDict [("conversions", PList (demo_records from count))])
    fresh_converter.

(** A file that is not text: a single byte that neither UTF-8 nor
    Windows-1252 decodes. *)
Definition undecodable_file : file_state :=
  Present true (String (ascii_of_N 129) EmptyString).

(** A history file with eleven records, as [json.dump] writes it. *)
Definition eleven_records_file : file_state :=
  Present true
    (Json.dumps (PDict [("conversions", PList (demo_records 0 11))])).

(** ** Notions used in the statements *)

(** The records of a history, when it has the shape the converter
    writes: a dict whose ["conversions"] is a list. *)
Definition conversions_of (h : pyval) : option (list pyval) :=
  match h with
  | PDict d =>
      match dict_lookup "conversions" d with
      | Some (PList l) => Some l
      | _ => None
      end
  | _ => None
  end.

(** Appending the records one after the other. *)
Fixpoint add_all (h : pyval) (records : list pyval) : outcome pyval :=
  match records with
  | [] => Ret h
  | r :: rest => obind (add_to_history h r) (fun h' => add_all h' rest)
  end.

(** The requests for a rate among the requests made. *)
Definition rate_requests (l : list request) : list request :=
  filter (fun r => match r with Latest _ _ => true | Symbols => false end) l.

(** The keys of a catalog: those of the mapping, none when there is no
    catalog. *)
Definition catalog_keys (catalog : pyval) : list string :=
  match catalog with
  | PDict d => map fst d
  | _ => []
  end.

(** What [get_available_currencies] returns when the service keeps to its
    interface: the mapping of symbols, or [None]. *)
Definition is_catalog (v : pyval) : Prop :=
  v = PNone \/ exists d, v = PDict d.

(** A positive number. *)
Definition is_positive (v : pyval) : bool :=
  match v with
  | PInt z => (0 <? z)%Z
  | PFloat f => PrimFloat.ltb 0 f
  | _ => false
  end.

(** The entry a response lists for [target] under ["rates"], unless the
    request failed or the response says it was not a success. *)
Definition listed_rate (response : http_result) (target : string) : option pyval :=
  match response with
  | Json (PDict d) =>
      let success :=
        match dict_lookup "success" d with
        | Some flag => py_truthy flag
        | None => true
        end in
      if success then
        match dict_lookup "rates" d with
        | Some (PDict rates) => dict_lookup target rates
        | _ => None
        end
      else None
  | _ => None
  end.

(** A response that keeps to the interface of the rate endpoint: a failed
    request, or an object whose ["rates"], when there, is an object. *)
Definition keeps_rate_interface (response : http_result) : Prop :=
  match response with
  | RequestException => True
  | Json (PDict d) =>
      match dict_lookup "rates" d with
      | None | Some (PDict _) => True
      | Some _ => False
      end
  | Json _ => False
  end.

(** The state after one more request has been logged. *)
Definition logged (r : request) (s : state) : state :=
  {| available_currencies := available_currencies s;
     history := history s;
     storage := storage s;
     requests_made := requests_made s ++ [r];
     clock_reads := clock_reads s |}.

(** The state after one more reading of the clock. *)
Definition ticked (s : state) : state :=
  {| available_currencies := available_currencies s;
     history := history s;
     storage := storage s;
     requests_made := requests_made s;
     clock_reads := S (clock_reads s) |}.

(** The claim that every record a call returned has been appended to the
    history and that the history file holds the history. *)
Definition recorded_and_persisted (E : environment) (results : list pyval)
    (s : state) : Prop :=
  (exists l, conversions_of (history s) = Some l /\
             forall r, In r results -> In r l) /\
  exists readable,
    history_file (storage s) = Present readable (json_dumps E (history s)).

(** Whether a record is that of a conversion of [base] to itself. *)
Definition is_same_currency_record (base : string) (r : pyval) : bool :=
  match py_getitem r "target" with
  | Ret v => str_eq_val base v
  | Raise _ => false
  end.

(** The records of a call that are not conversions of the base to
    itself. *)
Definition foreign_records (base : string) (records : list pyval) : list pyval :=
  filter (fun r => negb (is_same_currency_record base r)) records.

(** The claim that a rate which is returned is a positive number. *)
Definition returned_rates_are_positive : Prop :=
  forall (E : environment) (base target : string) (s s' : state) (r : pyval),
    get_exchange_rate E base target s = (Ret r, s') ->
    r <> PNone ->
    is_positive r = true.

(** The claim that the conversion returned by a call for one target, on
    a converter whose history has its shape and whose disk takes writes, is
    recorded and persisted when the call returns. *)
Definition every_conversion_is_recorded : Prop :=
  forall (E : environment) (base target : string) (amount : float)
         (s s' : state) (results l : list pyval),
    conversions_of (history s) = Some l ->
    on_write (storage s) = WriteOk ->
    convert_currency E base [target] amount s = (Ret results, s') ->
    results <> [] ->
    recorded_and_persisted E results s'.

(** ** The window: fetching the symbols (currency_converter_gui.py)

    [CurrencyApp] does not use the converter: it sends its own requests.
    [n] is the number of requests the process has sent before. *)

(** [sorted] on strings: ascending in the order of the code points, which
    is the order of the bytes of their UTF-8 encodings. *)
Fixpoint insert_sorted (x : string) (l : list string) : list string :=
  match l with
  | [] => [x]
  | y :: rest =>
      if String.leb x y then x :: l else y :: insert_sorted x rest
  end.

Definition py_sorted (l : list string) : list string :=
  fold_right insert_sorted [] l.

(** [fetch_symbols]: every exception is caught ([except Exception]) and
    gives [None]; a value whose ["symbols"] is not a dict has no [keys]. *)
Definition fetch_symbols (E : environment) (n : nat) : option (list string) :=
  match remote E n "https://api.exchangerate.host/symbols" with
  | RequestException => None
  | Json data =>
      match py_get data "success" PNone with
      | Raise _ => None
      | Ret success =>
          if py_truthy success then
            match py_in "symbols" data with
            | Ret true =>
                match py_getitem data "symbols" with
                | Ret (PDict d) => Some (py_sorted (map fst d))
                | Ret _ | Raise _ => None
                end
            | Ret false | Raise _ => None
            end
          else None
      end
  end.

(** [__init__] goes on to build the form only when [fetch_symbols] gave a
    list that is not empty; otherwise it shows an error and destroys the
    window. *)
Definition window_opens (E : environment) (n : nat) : bool :=
  match fetch_symbols E n with
  | Some (_ :: _) => true
  | Some [] | None => false
  end.

(** ** What the converter shows (show_history)

    Standard output is the list of the texts written, one for each call of
    [print], with the end of line the call adds. *)

(** The exceptions of the functions that show and of [main]: those of
    [exn], [ValueError], and the [EOFError] of [input]. *)
Inductive raised : Type :=
| Builtin (e : exn)
| ValueError
| EOFError.

(** The builtins of Python on text that depend on the Unicode tables, or
    on the version of Python, and are not spelled out here: [str(v)] for a
    value that is not a string, [s.lower()], [s.upper()], [s.strip()],
    [float(s)] ([None] for a [ValueError]), and the class of the exception
    of [d[:20]] for a dict [d] ([TypeError] up to Python 3.11, [KeyError]
    since). *)
Record builtins : Type := {
  str_of_value : pyval -> raised + string;
  str_lower : string -> string;
  str_upper : string -> string;
  str_strip : string -> string;
  float_of_str : string -> option float;
  dict_slice_error : exn
}.

Definition print_line (text : string) : string := text ++ String LF EmptyString.

(** [format(f, '.<digits>f')] for a float: the decimal with that many
    digits after the point nearest to [f], ties to even. *)
Definition format_fixed (digits : nat) (f : float) : string :=
  match Prim2SF f with
  | S754_nan => "nan"
  | S754_infinity false => "inf"
  | S754_infinity true => "-inf"
  | sf =>
      let sign := match sf with
                  | S754_zero true | S754_finite true _ _ => "-"
                  | _ => ""
                  end in
      let q := match sf with
               | S754_finite _ m e =>
                   snd (Json.scaled (Zpos m * Json.pow_nonneg 2 e)
                          (Json.pow_nonneg 2 (- e)) (Z.of_nat digits))
               | _ => 0%Z
               end in
      let ds := Json.string_of_N (Z.to_N q) in
      let padded := (Json.zeros (S digits - String.length ds) ++ ds)%string in
      let int_len := String.length padded - digits in
      (sign ++ substring 0 int_len padded
         ++ match digits with
            | O => ""
            | S _ => "." ++ Json.drop int_len padded
            end)%string
  end.

(** [format(v, '.<digits>f')]: an int or a bool is turned into a float
    first; a string has no such format, the others no format at all. *)
Definition format_f (digits : nat) (v : pyval) : raised + string :=
  match v with
  | PFloat f => inr (format_fixed digits f)
  | PInt z =>
      match float_of_int z with
      | Ret f => inr (format_fixed digits f)
      | Raise e => inl (Builtin e)
      end
  | PBool b => inr (format_fixed digits (if b then 1 else 0))
  | PStr _ => inl ValueError
  | PNone | PList _ | PDict _ => inl (Builtin TypeError)
  end.

(** [str(v)], as [f"{v}"] takes it. *)
Definition py_str (B : builtins) (v : pyval) : raised + string :=
  match v with
  | PStr s => inr s
  | _ => str_of_value B v
  end.

(** [s.split("T")[0]]: what comes before the first ["T"]. *)
Fixpoint before_T (s : string) : string :=
  match s with
  | EmptyString => EmptyString
  | String c s' =>
      if Ascii.eqb c "T" then EmptyString else String c (before_T s')
  end.

(** [v.split("T")[0]]: only a string has [split]. *)
Definition date_part (v : pyval) : raised + string :=
  match v with
  | PStr s => inr (before_T s)
  | _ => inl (Builtin AttributeError)
  end.

(** The characters of a string, each with the bytes of its encoding. *)
Fixpoint code_points (s : string) : list string :=
  match s with
  | EmptyString => []
  | String c s' =>
      match s' with
      | EmptyString => [String c EmptyString]
      | String c' _ =>
          if is_continuation c' then
            match code_points s' with
            | p :: ps => String c p :: ps
            | [] => [String c EmptyString]
            end
          else String c EmptyString :: code_points s'
      end
  end.

(** [reversed(v)]: the elements of a list, the characters of a string or
    the keys of a dict, last first; a number cannot be reversed. *)
Definition py_reversed (v : pyval) : outcome (list pyval) :=
  match v with
  | PList l => Ret (rev l)
  | PStr s => Ret (rev (map PStr (code_points s)))
  | PDict d => Ret (rev (map (fun kv : string * pyval => PStr (fst kv)) d))
  | PNone | PBool _ | PInt _ | PFloat _ => Raise TypeError
  end.

Definition lift_outcome {A : Type} (o : outcome A) : raised + A :=
  match o with
  | Ret a => inr a
  | Raise e => inl (Builtin e)
  end.

Definition and_then {A B : Type} (r : raised + A) (k : A -> raised + B)
  : raised + B :=
  match r with
  | inr a => k a
  | inl err => inl err
  end.

(** The arrow of the source text between the two amounts (three
    characters). *)
Definition ARROW : string :=
  String (ascii_of_N 195) (String (ascii_of_N 162)
    (String (ascii_of_N 226) (String (ascii_of_N 128) (String (ascii_of_N 160)
      (String (ascii_of_N 226) (String (ascii_of_N 128)
        (String (ascii_of_N 153) EmptyString))))))).

(** The line of the [i]-th entry shown: the five look-ups, the date, then
    the text with its fields formatted from left to right. *)
Definition history_line (B : builtins) (i : nat) (conv : pyval) : raised + string :=
  and_then (lift_outcome (py_getitem conv "base")) (fun base =>
  and_then (lift_outcome (py_getitem conv "target")) (fun target =>
  and_then (lift_outcome (py_getitem conv "amount")) (fun amount =>
  and_then (lift_outcome (py_getitem conv "converted")) (fun converted =>
  and_then (lift_outcome (py_getitem conv "timestamp")) (fun stamp =>
  and_then (date_part stamp) (fun timestamp =>
  and_then (format_f 2 amount) (fun amount_text =>
  and_then (py_str B base) (fun base_text =>
  and_then (format_f 2 converted) (fun converted_text =>
  and_then (py_str B target) (fun target_text =>
  inr (Json.string_of_N (N.of_nat i) ++ ". " ++ timestamp ++ ": "
         ++ amount_text ++ " " ++ base_text ++ " " ++ ARROW ++ " "
         ++ converted_text ++ " " ++ target_text)%string)))))))))).

Definition history_header : string :=
  String LF "=== Recent Conversions ===".

Definition rule : string := "==============================".

(** The loop of [show_history] from the [i]-th entry on, and the rule
    that closes the list; [printed] is what has been written so far. *)
Fixpoint show_entries (B : builtins) (i : nat) (items : list pyval)
    (printed : list string) : list string * option raised :=
  match items with
  | [] => (printed ++ [print_line rule], None)
  | conv :: rest =>
      match history_line B i conv with
      | inl err => (printed, Some err)
      | inr line => show_entries B (S i) rest (printed ++ [print_line line])
      end
  end.

(** [show_history]: what is written, and the exception that ended it if
    one did. *)
Definition show_history (B : builtins) (h : pyval) : list string * option raised :=
  match py_getitem h "conversions" with
  | Raise e => ([], Some (Builtin e))
  | Ret conversions =>
      if negb (py_truthy conversions) then
        ([print_line "No conversion history available."], None)
      else
        match py_reversed conversions with
        | Raise e => ([print_line history_header], Some (Builtin e))
        | Ret items => show_entries B 1 items [print_line history_header]
        end
  end.

(** ** What the converter shows (display_available_currencies) *)

(** [" " * n]. *)
Fixpoint blanks (n : nat) : string :=
  match n with
  | O => EmptyString
  | S n' => String " " (blanks n')
  end.

(** [s[:n]] on a string: its first [n] characters. *)
Definition first_chars (n : nat) (s : string) : string :=
  String.concat EmptyString (List.firstn n (code_points s)).

(** [format(s, '<width')]: blanks are added to the right up to [width]
    characters. *)
Definition ljust (width : nat) (s : string) : string :=
  (s ++ blanks (width - List.length (code_points s)))%string.

(** [f"{v[:20]:<20}"]: a string is cut and filled up; a list is cut, but
    has no such format; a dict does not take a slice as a key; the others
    cannot be subscripted. *)
Definition description_cell (B : builtins) (v : pyval) : raised + string :=
  match v with
  | PStr s => inr (ljust 20 (first_chars 20 s))
  | PDict _ => inl (Builtin (dict_slice_error B))
  | PList _ | PNone | PBool _ | PInt _ | PFloat _ => inl (Builtin TypeError)
  end.

(** What is written for one currency, without the two blanks that end
    it. *)
Definition currency_cell (B : builtins) (code : string) (data : pyval)
  : raised + string :=
  and_then (lift_outcome (py_getitem data "description")) (fun description =>
  and_then (description_cell B description) (fun cell =>
  inr (code ++ ": " ++ cell)%string)).

(** [v.items()]: only a dict has the method. *)
Definition py_items (v : pyval) : outcome (list (string * pyval)) :=
  match v with
  | PDict d => Ret d
  | _ => Raise AttributeError
  end.

Definition currencies_header : string :=
  String LF "=== Available Currencies ===".

Definition end_of_line : string := String LF EmptyString.

(** The loop of [display_available_currencies] and what follows it;
    [count] currencies have been written. *)
Fixpoint display_entries (B : builtins) (items : list (string * pyval))
    (count : nat) (printed : list string) : list string * option raised :=
  match items with
  | [] =>
      (printed
         ++ (if Nat.eqb (count mod 3) 0 then [] else [end_of_line])
         ++ [print_line rule],
       None)
  | (code, data) :: rest =>
      match currency_cell B code data with
      | inl err => (printed, Some err)
      | inr text =>
          let printed' := printed ++ [(text ++ "  ")%string] in
          display_entries B rest (S count)
            (if Nat.eqb (S count mod 3) 0 then printed' ++ [end_of_line]
             else printed')
      end
  end.

(** [display_available_currencies]: what is written, the exception that
    ended it if one did, and the state. *)
Definition display_available_currencies (B : builtins) (E : environment)
    (s : state) : (list string * option raised) * state :=
  match get_available_currencies E s with
  | (Raise e, s') => (([], Some (Builtin e)), s')
  | (Ret currencies, s') =>
      if negb (py_truthy currencies) then (([], None), s')
      else
        match py_items currencies with
        | Raise e => (([print_line currencies_header], Some (Builtin e)), s')
        | Ret items =>
            (display_entries B items 0 [print_line currencies_header], s')
        end
  end.

(** ** The command line (main in converter.py)

    The lines typed are the list [inputs]; [input] raises [EOFError] when
    it is used up.  What [main] and the converter write is left out, and
    with it [_get_emoji_support], which only chooses the banner. *)

Inductive ending : Type :=
| Exited
| Failed (err : raised).

(** [s.split(',')]. *)
Fixpoint split_commas (s : string) : list string :=
  match s with
  | EmptyString => [EmptyString]
  | String c s' =>
      if Ascii.eqb c "," then EmptyString :: split_commas s'
      else
        match split_commas s' with
        | first :: others => String c first :: others
        | [] => [String c EmptyString]
        end
  end.

Definition says (B : builtins) (typed word : string) : bool :=
  String.eqb (str_lower B typed) word.

(** The classes of [exn] that [except ValueError] catches:
    [json.JSONDecodeError] and [UnicodeDecodeError] are subclasses of
    [ValueError]. *)
Definition is_value_error (e : exn) : bool :=
  match e with
  | JSONDecodeError | UnicodeDecodeError => true
  | TypeError | KeyError | AttributeError | OverflowError | OSError
  | RecursionError => false
  end.

(** The call of [convert_currency] inside the [try] of [main]: the
    exception that leaves the [try] statement, if any.  The list returned
    is dropped. *)
Definition try_convert (E : environment) (base : string)
    (target_currencies : list string) (amount : float) (s : state)
  : option exn * state :=
  match convert_currency E base target_currencies amount s with
  | (Ret _, s') => (None, s')
  | (Raise e, s') => if is_value_error e then (None, s') else (Some e, s')
  end.

(** The [while True] loop of [main]: how it ends, and the converter as it
    leaves it. *)
Fixpoint main_loop (B : builtins) (E : environment) (inputs : list string)
    (s : state) {struct inputs} : ending * state :=
  let show (inputs' : list string) :=
    match snd (show_history B (history s)) with
    | Some err => (Failed err, s)
    | None => main_loop B E inputs' s
    end in
  let display (inputs' : list string) :=
    match display_available_currencies B E s with
    | ((_, Some err), s') => (Failed err, s')
    | ((_, None), s') => main_loop B E inputs' s'
    end in
  match inputs with
  | [] => (Failed EOFError, s)
  | choice :: inputs1 =>
      if String.eqb choice "4" || says B choice "exit" then (Exited, s)
      else if String.eqb choice "2" || says B choice "currencies" then
        display inputs1
      else if String.eqb choice "3" || says B choice "history" then
        show inputs1
      else if String.eqb choice "1" then
        match inputs1 with
        | [] => (Failed EOFError, s)
        | base_typed :: inputs2 =>
            let base := str_upper B base_typed in
            if says B base "exit" then (Exited, s)
            else if says B base "currencies" then display inputs2
            else if says B base "history" then show inputs2
            else
              match inputs2 with
              | [] => (Failed EOFError, s)
              | targets_typed :: inputs3 =>
                  let target_input := str_upper B targets_typed in
                  if says B target_input "exit" then (Exited, s)
                  else if says B target_input "currencies" then display inputs3
                  else if says B target_input "history" then show inputs3
                  else
                    let target_currencies :=
                      map (str_strip B) (split_commas target_input) in
                    match inputs3 with
                    | [] => (Failed EOFError, s)
                    | amount_input :: inputs4 =>
                        if says B amount_input "exit" then (Exited, s)
                        else
                          match float_of_str B amount_input with
                          | None => main_loop B E inputs4 s
                          | Some amount =>
                              if PrimFloat.ltb amount 0 then
                                main_loop B E inputs4 s
                              else
                                match try_convert E base target_currencies
                                        amount s with
                                | (None, s') => main_loop B E inputs4 s'
                                | (Some e, s') => (Failed (Builtin e), s')
                                end
                          end
                    end
              end
        end
      else main_loop B E inputs1 s
  end.

(** [main]: the converter is constructed over the disk, then the loop
    runs. *)
Definition main (B : builtins) (E : environment) (d : disk)
    (inputs : list string) : ending * option state :=
  match init E d with
  | Raise e => (Failed (Builtin e), None)
  | Ret s =>
      let (how, s') := main_loop B E inputs s in (how, Some s')
  end.

(** ** Notions used in the further properties *)

(** Whether [validate_currency] finds a code in a catalog that is there. *)
Definition valid_in (catalog : pyval) (code : string) : bool :=
  match py_in code catalog with
  | Ret b => b
  | Raise _ => false
  end.

(** The targets of a call for which a rate is asked: all but the base. *)
Definition foreign_targets (base : string) (targets : list string) : list string :=
  filter (fun t => negb (String.eqb base t)) targets.

(** [l1] is [l2] with some elements left out. *)
Inductive subsequence {A : Type} : list A -> list A -> Prop :=
| subsequence_nil : forall l, subsequence [] l
| subsequence_skip : forall x l1 l2, subsequence l1 l2 -> subsequence l1 (x :: l2)
| subsequence_take : forall x l1 l2,
    subsequence l1 l2 -> subsequence (x :: l1) (x :: l2).

(** A record of a conversion of [amount] units of [base] to [target]. *)
Definition is_record_of (base : string) (amount : float) (target : string)
    (r : pyval) : Prop :=
  exists converted rate timestamp,
    r = make_record base target (PFloat amount) (PFloat converted) rate timestamp.

(** The converter once the catalog of the demo service is in memory. *)
Definition converter_with_catalog : state :=
  set_available_currencies demo_symbols (logged Symbols fresh_converter).

(** A service that quotes EUR at 0.5 and fails to quote GBP. *)
Definition half_env : environment := demo_env "USD" [("EUR", PFloat 0.5)].

(** A call with an unknown target, a quoted one, the base itself and one
    whose rate cannot be had. *)
Definition mixed_call : outcome (list pyval) * state :=
  convert_currency half_env "USD" ["XXX"; "EUR"; "USD"; "GBP"] 100
    fresh_converter.

Definition mixed_results : list pyval :=
  [make_record "USD" "EUR" (PFloat 100) (PFloat 50) (PFloat 0.5) (demo_clock 0);
   make_record "USD" "USD" (PFloat 100) (PFloat 100) (PFloat 1) (demo_clock 1)].

(** A converter with the catalog in memory whose disk refuses to open the
    history file for writing; the file holds an older history. *)
Definition converter_on_refusing_disk : state :=
  set_storage
    {| history_file := Present true (Json.dumps empty_history);
       on_write := OpenRefused |}
    converter_with_catalog.

(** A converter whose history file held the JSON text of an empty list. *)
Definition converter_with_list_history : state :=
  set_history (PList []) converter_with_catalog.

(** The history file holds the history in memory, as [json.dump] writes
    it. *)
Definition in_sync (E : environment) (s : state) : Prop :=
  exists readable,
    history_file (storage s) = Present readable (json_dumps E (history s)).

(** A service that answers every request with a JSON list. *)
Definition list_env : environment :=
  {| remote := fun _ _ => Json (PList []);
     now_isoformat := demo_clock;
     json_dumps := Json.dumps;
     json_loads := Json.loads |}.

(** A service that quotes EUR with a string instead of a number. *)
Definition text_rate_env : environment := demo_env "USD" [("EUR", PStr "0.5")].

(** A history file with an entry beside the conversions. *)
Definition versioned_history : list (string * pyval) :=
  [("version", PInt 1); ("conversions", PList (demo_records 0 10));
   ("owner", PStr "me")].








(** The amount of a record is a float that is not below zero. *)
Definition no_negative_amount (r : pyval) : Prop :=
  exists a, py_getitem r "amount" = Ret (PFloat a) /\ PrimFloat.ltb a 0 = false.

(** The history has the converter's shape and all its records have the
    property. *)
Definition history_all (Q : pyval -> Prop) (s : state) : Prop :=
  exists l, conversions_of (history s) = Some l /\ List.Forall Q l.

(** Builtins for plain text: the case of the letters A to Z, the blanks
    at both ends, and the amounts that [Json.loads] reads as numbers. *)
Definition ascii_lower (c : ascii) : ascii :=
  if byte_in 65 90 c then ascii_of_N (N_of_ascii c + 32) else c.

Definition ascii_upper (c : ascii) : ascii :=
  if byte_in 97 122 c then ascii_of_N (N_of_ascii c - 32) else c.

Fixpoint map_string (f : ascii -> ascii) (s : string) : string :=
  match s with
  | EmptyString => EmptyString
  | String c s' => String (f c) (map_string f s')
  end.

Fixpoint strip_left (s : string) : string :=
  match s with
  | String c s' => if Json.is_ws c then strip_left s' else s
  | EmptyString => s
  end.

Fixpoint reverse_string (s acc : string) : string :=
  match s with
  | EmptyString => acc
  | String c s' => reverse_string s' (String c acc)
  end.

Definition plain_builtins : builtins :=
  {| str_of_value := fun _ => inl ValueError;
     str_lower := map_string ascii_lower;
     str_upper := map_string ascii_upper;
     str_strip := fun s =>
       reverse_string (strip_left (reverse_string (strip_left s) EmptyString))
         EmptyString;
     float_of_str := fun s =>
       match Json.loads s with
       | Ret (PFloat f) => Some f
       | Ret (PInt z) =>
           match float_of_int z with
           | Ret f => Some f
           | Raise _ => None
           end
       | _ => None
       end;
     dict_slice_error := KeyError |}.

(** A session at the command line: a conversion with a negative amount,
    one with an amount that is no number, a good one, then the history and
    the way out. *)
Definition demo_session : list string :=
  ["1"; "usd"; "eur"; "-5";
   "1"; "usd"; "eur"; "five";
   "1"; "usd"; " eur , xxx"; "100";
   "history"; "exit"].

(** ** Tactics for the monad *)

Ltac unfold_m :=
  unfold bind, ret, lift, gets, modify, requests_get, datetime_now in *.

Ltac case_scrutinee :=
  match goal with
  | |- context [match ?x with _ => _ end] =>
      lazymatch x with
      | context [match _ with _ => _ end] => fail
      | _ => destruct x eqn:?
      end
  end.

Ltac inv_pair :=
  repeat match goal with
    | H : (_, _) = (_, _) |- _ => injection H as <- <-
    end.

(** * Properties *)

(** ** Lists *)

Lemma last_n_length {A : Type} (n : nat) (l : list A) :
  List.length (last_n n l) = Nat.min n (List.length l).
Proof.
  unfold last_n. rewrite List.length_skipn. lia.
Qed.

Lemma last_n_all {A : Type} (n : nat) (l : list A) :
  List.length l <= n -> last_n n l = l.
Proof.
  intros H. unfold last_n.
  replace (List.length l - n) with 0 by lia. reflexivity.
Qed.

Lemma last_n_app {A : Type} (n : nat) (l l' : list A) :
  last_n n (last_n n l ++ l') = last_n n (l ++ l').
Proof.
  unfold last_n.
  set (k := List.length l - n).
  assert (Hk : List.skipn k l ++ l' = List.skipn k (l ++ l')).
  { rewrite List.skipn_app.
    replace (k - List.length l) with 0 by (unfold k; lia). reflexivity. }
  rewrite Hk, List.skipn_skipn. f_equal.
  rewrite List.length_skipn, !List.length_app. unfold k. lia.
Qed.

(** ** Dictionaries and the history value *)

Lemma dict_lookup_set_same (k : string) (v : pyval) (d : list (string * pyval)) :
  dict_lookup k (dict_set k v d) = Some v.
Proof.
  induction d as [| [k' v'] d IH]; simpl.
  - rewrite String.eqb_refl. reflexivity.
  - destruct (String.eqb k k') eqn:Hk; simpl; rewrite Hk; auto.
Qed.

Lemma dict_has_In (k : string) (d : list (string * pyval)) :
  dict_has k d = true <-> In k (map fst d).
Proof.
  unfold dict_has. induction d as [| [k' v'] d IH]; simpl.
  - split; [discriminate | tauto].
  - destruct (String.eqb k k') eqn:Hk.
    + apply String.eqb_eq in Hk. subst. tauto.
    + apply String.eqb_neq in Hk. rewrite IH. split.
      * auto.
      * intros [H | H]; [congruence | exact H].
Qed.

Lemma conversions_of_inv (h : pyval) (l : list pyval) :
  conversions_of h = Some l ->
  exists d, h = PDict d /\ dict_lookup "conversions" d = Some (PList l).
Proof.
  destruct h as [| | | | | |d]; simpl; try discriminate.
  destruct (dict_lookup "conversions" d) as [[| | | | |l0|]|] eqn:Hd;
    try discriminate.
  intros H. injection H as ->. eauto.
Qed.

(** One append: the record goes last and the list is cut to its last ten. *)
Lemma add_to_history_conversions (h r : pyval) (l : list pyval) :
  conversions_of h = Some l ->
  exists h', add_to_history h r = Ret h' /\
             conversions_of h' = Some (last_n 10 (l ++ [r])).
Proof.
  intros H. apply conversions_of_inv in H as (d & -> & Hd).
  unfold add_to_history. simpl. rewrite Hd. simpl.
  eexists. split; [reflexivity |].
  simpl. rewrite dict_lookup_set_same.
  destruct (Nat.ltb 10 (List.length (l ++ [r]))) eqn:Hlen.
  - reflexivity.
  - apply Nat.ltb_ge in Hlen. rewrite last_n_all by exact Hlen. reflexivity.
Qed.

Lemma add_all_conversions (records : list pyval) :
  forall (h : pyval) (l : list pyval),
    conversions_of h = Some l ->
    exists h', add_all h records = Ret h' /\
               conversions_of h' =
                 Some (match records with
                       | [] => l
                       | _ :: _ => last_n 10 (l ++ records)
                       end).
Proof.
  induction records as [| r rest IH]; intros h l H.
  - exists h. split; [reflexivity | exact H].
  - destruct (add_to_history_conversions h r l H) as (h1 & Hadd & Hconv).
    destruct (IH h1 _ Hconv) as (h' & Hall & Hconv').
    exists h'. split.
    + simpl. rewrite Hadd. simpl. exact Hall.
    + rewrite Hconv'. destruct rest as [| r' rest'].
      * reflexivity.
      * rewrite last_n_app, <- List.app_assoc. reflexivity.
Qed.

(** ** The cap on the history (C1) *)

(** C1: whatever the history holds to begin with (more than ten records
    when the file had more), after every append the history has at most ten
    records and they are the last ten of all the records in the order they
    were appended, the oldest being the ones dropped; from the empty
    history they are the last ten of the appended ones. *)
Theorem history_keeps_ten_most_recent
    (h : pyval) (l rs : list pyval) (r : pyval) :
  conversions_of h = Some l ->
  exists h' kept dropped,
    add_all h (rs ++ [r]) = Ret h' /\
    conversions_of h' = Some kept /\
    List.length kept <= 10 /\
    kept = last_n 10 (l ++ rs ++ [r]) /\
    l ++ rs ++ [r] = dropped ++ kept /\
    (l = [] -> kept = last_n 10 (rs ++ [r])).
Proof.
  intros H.
  destruct (add_all_conversions (rs ++ [r]) h l H) as (h' & Hall & Hconv).
  exists h', (last_n 10 (l ++ rs ++ [r])),
    (List.firstn (List.length (l ++ rs ++ [r]) - 10) (l ++ rs ++ [r])).
  split; [exact Hall |]. split.
  - rewrite Hconv. destruct (rs ++ [r]) eqn:Hrs.
    + destruct rs; discriminate.
    + reflexivity.
  - split.
    + rewrite last_n_length. lia.
    + split; [reflexivity |]. split.
      * unfold last_n. symmetry. apply List.firstn_skipn.
      * intros ->. reflexivity.
Qed.

Lemma history_keeps_ten_most_recent_witness :
  conversions_of empty_history = Some [] /\
  exists h' kept dropped,
    add_all empty_history (demo_records 0 11 ++ [demo_record 11]) = Ret h' /\
    conversions_of h' = Some kept /\
    List.length kept <= 10 /\
    kept = last_n 10 ([] ++ demo_records 0 11 ++ [demo_record 11]) /\
    [] ++ demo_records 0 11 ++ [demo_record 11] = dropped ++ kept /\
    (@nil pyval = [] -> kept = last_n 10 (demo_records 0 11 ++ [demo_record 11])).
Proof.
  split; [reflexivity |].
  apply (history_keeps_ten_most_recent empty_history []).
  reflexivity.
Defined.

(** ** What the methods change *)

(** A rate request logs one request and changes nothing else, whatever
    it returns. *)
Lemma get_exchange_rate_state (E : environment) (base target : string)
    (s s' : state) (r : outcome pyval) :
  get_exchange_rate E base target s = (r, s') ->
  s' = logged (Latest base target) s.
Proof.
  unfold get_exchange_rate. unfold_m.
  repeat (case_scrutinee; simpl); intros H; inv_pair; reflexivity.
Qed.

(** Fetching the catalog leaves the history, the file and the clock, and
    issues at most a request for the symbols. *)
Lemma get_available_currencies_frame (E : environment) (s s' : state)
    (r : outcome pyval) :
  get_available_currencies E s = (r, s') ->
  history s' = history s /\
  storage s' = storage s /\
  clock_reads s' = clock_reads s /\
  (requests_made s' = requests_made s \/
   requests_made s' = requests_made s ++ [Symbols]).
Proof.
  unfold get_available_currencies. unfold_m.
  repeat (case_scrutinee; simpl); intros H; inv_pair; simpl; auto.
Qed.

Lemma validate_currency_frame (E : environment) (code : string) (s s' : state)
    (r : outcome bool) :
  validate_currency E code s = (r, s') ->
  history s' = history s /\
  storage s' = storage s /\
  clock_reads s' = clock_reads s /\
  rate_requests (requests_made s') = rate_requests (requests_made s).
Proof.
  unfold validate_currency, bind. intros H.
  destruct (get_available_currencies E s) as [o s1] eqn:Hget.
  apply get_available_currencies_frame in Hget as (Hh & Hs & Hc & Hr).
  assert (Hs1 : s' = s1).
  { destruct o as [v | e]; [| congruence].
    destruct (negb (py_truthy v)); unfold ret, lift in H; congruence. }
  subst s'. repeat split; auto.
  destruct Hr as [-> | ->]; [reflexivity |].
  unfold rate_requests. rewrite List.filter_app. simpl.
  apply List.app_nil_r.
Qed.

(** With a catalog in the cache, validation is a lookup. *)
Lemma validate_currency_cached (E : environment) (code : string) (s : state) :
  py_truthy (available_currencies s) = true ->
  validate_currency E code s = (py_in code (available_currencies s), s).
Proof.
  intros H. unfold validate_currency, get_available_currencies. unfold_m.
  rewrite H. simpl. rewrite H. reflexivity.
Qed.

(** A code found valid is in the cache from then on. *)
Lemma validate_currency_true_cached (E : environment) (code : string)
    (s s' : state) :
  validate_currency E code s = (Ret true, s') ->
  py_truthy (available_currencies s') = true /\
  py_in code (available_currencies s') = Ret true.
Proof.
  unfold validate_currency, get_available_currencies. unfold_m.
  repeat (case_scrutinee; simpl); intros H;
    try discriminate; injection H as H1 H2; subst; simpl;
    repeat match goal with
      | H : negb _ = false |- _ => apply negb_false_iff in H
      end;
    try (injection H1 as ->); auto; try discriminate.
Qed.

(** The body of the loop on the base currency itself. *)
Lemma convert_one_same (E : environment) (base : string) (amount : float)
    (results : list pyval) (s : state) :
  convert_one E base amount base results s =
    (Ret (results ++
          [make_record base base (PFloat amount) (PFloat amount) (PFloat 1)
             (now_isoformat E (clock_reads s))]),
     ticked s).
Proof.
  unfold convert_one. rewrite String.eqb_refl. reflexivity.
Qed.

(** [_save_history] always returns, the disk being what the write made
    of it. *)
Lemma save_history_state (E : environment) (s : state) :
  _save_history E s =
    (Ret tt,
     set_storage (snd (write_text (storage s) (json_dumps E (history s)))) s).
Proof.
  unfold _save_history, write_text.
  destruct (on_write (storage s)); reflexivity.
Qed.

(** The three ways the body of the loop can return: the target is the
    base; no rate was had; or a record was made and appended to the
    history. *)
Lemma convert_one_cases (E : environment) (base target : string) (amount : float)
    (results results' : list pyval) (s s' : state) :
  convert_one E base amount target results s = (Ret results', s') ->
  (target = base /\
   history s' = history s /\
   exists timestamp,
     results' = results ++
       [make_record base base (PFloat amount) (PFloat amount) (PFloat 1)
          timestamp]) \/
  (target <> base /\ history s' = history s /\ results' = results) \/
  (target <> base /\
   exists converted rate timestamp,
     results' = results ++
       [make_record base target (PFloat amount) converted rate timestamp] /\
     add_to_history (history s)
       (make_record base target (PFloat amount) converted rate timestamp)
     = Ret (history s')).
Proof.
  unfold convert_one.
  destruct (String.eqb base target) eqn:Heq.
  - apply String.eqb_eq in Heq. subst target. unfold_m.
    intros H. injection H as <- <-. left. eauto.
  - apply String.eqb_neq in Heq.
    assert (Hneq : target <> base) by congruence.
    unfold bind at 1.
    destruct (get_exchange_rate E base target s) as [[rate | e] s1] eqn:Hrate;
      [| discriminate].
    apply get_exchange_rate_state in Hrate. subst s1.
    assert (Hrest :
      (converted_amount <- lift (float_mul amount rate) ;;
       timestamp <- datetime_now E ;;
       h <- gets history ;;
       h' <- lift (add_to_history h
                     (make_record base target (PFloat amount)
                        converted_amount rate timestamp)) ;;
       modify (set_history h') ;;;
       _save_history E ;;;
       ret (results ++
            [make_record base target (PFloat amount) converted_amount rate
               timestamp])) (logged (Latest base target) s)
      = (Ret results', s') ->
      exists converted rate0 timestamp,
        results' = results ++
          [make_record base target (PFloat amount) converted rate0 timestamp] /\
        add_to_history (history s)
          (make_record base target (PFloat amount) converted rate0 timestamp)
        = Ret (history s')).
    { unfold_m.
      destruct (float_mul amount rate) as [converted |]; [| discriminate].
      simpl.
      destruct (add_to_history (history s)
                  (make_record base target (PFloat amount) converted rate
                     (now_isoformat E (clock_reads s)))) as [h' |] eqn:Hadd;
        [| discriminate].
      rewrite save_history_state. intros H. injection H as <- <-.
      exists converted, rate, (now_isoformat E (clock_reads s)).
      split; [reflexivity |]. rewrite Hadd. reflexivity. }
    destruct rate; try (intros H; right; right; split; [exact Hneq | exact (Hrest H)]).
    unfold ret. intros H. injection H as <- <-.
    right; left. auto.
Qed.

Lemma add_all_app (records records' : list pyval) :
  forall h : pyval,
    add_all h (records ++ records')
    = obind (add_all h records) (fun h' => add_all h' records').
Proof.
  induction records as [| r rest IH]; intros h; simpl.
  - reflexivity.
  - destruct (add_to_history h r) as [h1 |]; simpl; [apply IH | reflexivity].
Qed.

(** A run of the loop returns the results it was given followed by new
    ones, and leaves the history it found with the new records that are not
    conversions of the base to itself appended one after the other. *)
Lemma for_each_target_appends (E : environment) (base : string) (amount : float)
    (targets : list string) :
  forall (results results' : list pyval) (s s' : state),
    for_each_target E base amount targets results s = (Ret results', s') ->
    exists new,
      results' = results ++ new /\
      add_all (history s) (foreign_records base new) = Ret (history s').
Proof.
  induction targets as [| target rest IH]; intros results results' s s'.
  - simpl. unfold ret. intros H. injection H as <- <-.
    exists []. split; [symmetry; apply List.app_nil_r | reflexivity].
  - simpl. unfold bind at 1.
    destruct (convert_one E base amount target results s)
      as [[results1 | e] s1] eqn:Hone; [| discriminate].
    intros Hrest. destruct (IH _ _ _ _ Hrest) as (new & -> & Hall).
    apply convert_one_cases in Hone
      as [(-> & Hh & ts & ->) | [(Hneq & Hh & ->) | (Hneq & c & r & ts & -> & Hadd)]].
    + eexists. split; [rewrite <- List.app_assoc; reflexivity |].
      unfold foreign_records in *. simpl.
      unfold is_same_currency_record. simpl.
      rewrite String.eqb_refl. simpl. rewrite <- Hh. exact Hall.
    + exists new. split; [reflexivity |]. rewrite <- Hh. exact Hall.
    + eexists. split; [rewrite <- List.app_assoc; reflexivity |].
      unfold foreign_records in *. simpl.
      unfold is_same_currency_record. simpl.
      assert (Hb : String.eqb base target = false)
        by (apply String.eqb_neq; congruence).
      rewrite Hb. simpl. rewrite Hadd. simpl. exact Hall.
Qed.

(** Validating the targets leaves the history and the disk. *)
Lemma invalid_targets_frame (E : environment) (targets : list string) :
  forall (s s' : state) (r : outcome (list string)),
    invalid_targets E targets s = (r, s') ->
    history s' = history s /\ storage s' = storage s.
Proof.
  induction targets as [| c rest IH]; intros s s' r; simpl.
  - unfold ret. intros H. injection H as <- <-. auto.
  - unfold bind at 1.
    destruct (validate_currency E c s) as [[valid | e] s1] eqn:Hv;
      apply validate_currency_frame in Hv as (Hh & Hs & _).
    + unfold bind at 1.
      destruct (invalid_targets E rest s1) as [[invalid | e] s2] eqn:Hi;
        apply IH in Hi as (Hh2 & Hs2);
        unfold ret; intros H; injection H as <- <-; split; congruence.
    + intros H. injection H as <- <-. auto.
Qed.

(** A call leaves the history it found with the returned records that are
    not conversions of the base to itself appended one after the other. *)
Lemma convert_currency_appends (E : environment) (base : string)
    (targets : list string) (amount : float) (results : list pyval)
    (s s' : state) :
  convert_currency E base targets amount s = (Ret results, s') ->
  add_all (history s) (foreign_records base results) = Ret (history s').
Proof.
  unfold convert_currency. unfold bind at 1.
  destruct (validate_currency E base s) as [[valid | e] s1] eqn:Hv;
    [| discriminate].
  apply validate_currency_frame in Hv as (Hh1 & _).
  destruct valid; simpl.
  - unfold bind at 1.
    destruct (invalid_targets E targets s1) as [[invalid | e] s2] eqn:Hi;
      [| discriminate].
    apply invalid_targets_frame in Hi as (Hh2 & _).
    assert (Hloop : forall ts,
      for_each_target E base amount ts [] s2 = (Ret results, s') ->
      add_all (history s) (foreign_records base results) = Ret (history s')).
    { intros ts H. apply for_each_target_appends in H as (new & -> & Hall).
      simpl. congruence. }
    destruct invalid as [| c invalid]; [apply Hloop |].
    destruct (filter _ targets) as [| t ts] eqn:Hf; [| apply Hloop].
    unfold ret. intros H. injection H as <- <-. simpl. congruence.
  - unfold ret. intros H. injection H as <- <-. simpl. congruence.
Qed.

(** On a history of the converter's shape: after a call, the records are
    the ones found when nothing was appended, and otherwise the last ten
    of the ones found followed by the appended ones. *)
Lemma convert_currency_history (E : environment) (base : string)
    (targets : list string) (amount : float) (results l : list pyval)
    (s s' : state) :
  conversions_of (history s) = Some l ->
  convert_currency E base targets amount s = (Ret results, s') ->
  conversions_of (history s') =
    Some (match foreign_records base results with
          | [] => l
          | _ :: _ => last_n 10 (l ++ foreign_records base results)
          end).
Proof.
  intros Hl Hrun. apply convert_currency_appends in Hrun.
  destruct (add_all_conversions (foreign_records base results) _ _ Hl)
    as (h' & Hall & Hconv).
  congruence.
Qed.

(** ** Converting a currency to itself (C3) *)

(** C3: when the base currency is valid, converting it to itself returns
    exactly one record, with rate 1.0 and the amount as converted amount,
    and no rate is requested from the service. *)
Theorem same_currency_conversion
    (E : environment) (base : string) (amount : float) (s s1 : state) :
  validate_currency E base s = (Ret true, s1) ->
  exists record s',
    convert_currency E base [base] amount s = (Ret [record], s') /\
    py_getitem record "base" = Ret (PStr base) /\
    py_getitem record "target" = Ret (PStr base) /\
    py_getitem record "amount" = Ret (PFloat amount) /\
    py_getitem record "converted" = Ret (PFloat amount) /\
    py_getitem record "rate" = Ret (PFloat 1) /\
    rate_requests (requests_made s') = rate_requests (requests_made s).
Proof.
  intros Hvalid.
  destruct (validate_currency_true_cached E base s s1 Hvalid) as [Hc Hin].
  destruct (validate_currency_frame E base s s1 _ Hvalid) as (_ & _ & _ & Hreq).
  assert (Hinv : invalid_targets E [base] s1 = (Ret [], s1)).
  { cbn [invalid_targets]. unfold bind.
    rewrite (validate_currency_cached E base s1 Hc), Hin. reflexivity. }
  eexists. exists (ticked s1). split.
  - unfold convert_currency, bind. rewrite Hvalid. cbn [negb].
    rewrite Hinv. cbn [for_each_target]. unfold bind.
    rewrite convert_one_same. reflexivity.
  - repeat split; try reflexivity. exact Hreq.
Qed.

Lemma same_currency_conversion_witness :
  validate_currency (demo_env "USD" []) "USD" fresh_converter
    = (Ret true,
       set_available_currencies demo_symbols (logged Symbols fresh_converter)) /\
  exists record s',
    convert_currency (demo_env "USD" []) "USD" ["USD"] 100 fresh_converter
      = (Ret [record], s') /\
    py_getitem record "base" = Ret (PStr "USD") /\
    py_getitem record "target" = Ret (PStr "USD") /\
    py_getitem record "amount" = Ret (PFloat 100) /\
    py_getitem record "converted" = Ret (PFloat 100) /\
    py_getitem record "rate" = Ret (PFloat 1) /\
    rate_requests (requests_made s') = rate_requests (requests_made fresh_converter).
Proof.
  split; [reflexivity |].
  apply (same_currency_conversion (demo_env "USD" []) "USD" 100 fresh_converter
           (set_available_currencies demo_symbols (logged Symbols fresh_converter))).
  reflexivity.
Defined.

(** ** What a same-currency target leaves alone (C10) *)

(** C10: on a target equal to the base, the body of the loop adds one
    record to the results and leaves the history in memory and the disk as
    they are (as well as the catalog and the log of requests). *)
Theorem same_currency_leaves_history_and_file
    (E : environment) (base : string) (amount : float)
    (results : list pyval) (s : state) :
  exists record s',
    convert_one E base amount base results s = (Ret (results ++ [record]), s') /\
    history s' = history s /\
    storage s' = storage s /\
    available_currencies s' = available_currencies s /\
    requests_made s' = requests_made s.
Proof.
  eexists. exists (ticked s). split.
  - apply convert_one_same.
  - repeat split.
Qed.

(** ** A rate that cannot be had (C8) *)

(** A request that fails makes [get_exchange_rate] return [None]. *)
Lemma get_exchange_rate_request_failed (E : environment) (base target : string)
    (s : state) :
  remote E (List.length (requests_made s)) (url_of (Latest base target))
    = RequestException ->
  get_exchange_rate E base target s = (Ret PNone, logged (Latest base target) s).
Proof.
  intros H. unfold get_exchange_rate. unfold_m. rewrite H. reflexivity.
Qed.

(** C8: when the rate of a target other than the base cannot be had, the
    target adds no record, the history in memory and the disk stay as they
    are, and the loop goes on with the targets that follow. *)
Theorem failed_rate_fetch_skips_target
    (E : environment) (base target : string) (amount : float)
    (rest : list string) (results : list pyval) (s s1 : state) :
  base <> target ->
  get_exchange_rate E base target s = (Ret PNone, s1) ->
  convert_one E base amount target results s = (Ret results, s1) /\
  history s1 = history s /\
  storage s1 = storage s /\
  for_each_target E base amount (target :: rest) results s
    = for_each_target E base amount rest results s1.
Proof.
  intros Hneq Hrate.
  assert (Hone : convert_one E base amount target results s = (Ret results, s1)).
  { unfold convert_one. apply String.eqb_neq in Hneq. rewrite Hneq.
    unfold bind. rewrite Hrate. reflexivity. }
  split; [exact Hone |].
  apply get_exchange_rate_state in Hrate. subst s1.
  repeat split.
  simpl. unfold bind. rewrite Hone. reflexivity.
Qed.

Lemma failed_rate_fetch_skips_target_witness :
  "USD" <> "GBP" /\
  get_exchange_rate (demo_env "USD" [("EUR", PFloat 0.5)]) "USD" "GBP"
    fresh_converter
    = (Ret PNone, logged (Latest "USD" "GBP") fresh_converter) /\
  convert_one (demo_env "USD" [("EUR", PFloat 0.5)]) "USD" 100 "GBP" []
    fresh_converter
    = (Ret [], logged (Latest "USD" "GBP") fresh_converter) /\
  history (logged (Latest "USD" "GBP") fresh_converter)
    = history fresh_converter /\
  storage (logged (Latest "USD" "GBP") fresh_converter)
    = storage fresh_converter /\
  for_each_target (demo_env "USD" [("EUR", PFloat 0.5)]) "USD" 100
    ("GBP" :: ["EUR"]) [] fresh_converter
    = for_each_target (demo_env "USD" [("EUR", PFloat 0.5)]) "USD" 100
        ["EUR"] [] (logged (Latest "USD" "GBP") fresh_converter).
Proof.
  assert (Hneq : "USD" <> "GBP") by discriminate.
  assert (Hrate :
    get_exchange_rate (demo_env "USD" [("EUR", PFloat 0.5)]) "USD" "GBP"
      fresh_converter
      = (Ret PNone, logged (Latest "USD" "GBP") fresh_converter))
    by reflexivity.
  split; [exact Hneq |]. split; [exact Hrate |].
  exact (failed_rate_fetch_skips_target
           (demo_env "USD" [("EUR", PFloat 0.5)]) "USD" "GBP" 100 ["EUR"] []
           fresh_converter _ Hneq Hrate).
Defined.

(** ** Validation (C4) *)

(** Without a cached catalog, a failed request leaves no catalog. *)
Lemma get_available_currencies_request_failed (E : environment) (s : state) :
  py_truthy (available_currencies s) = false ->
  remote E (List.length (requests_made s)) (url_of Symbols) = RequestException ->
  get_available_currencies E s = (Ret PNone, logged Symbols s).
Proof.
  intros Hc H. unfold get_available_currencies. unfold_m.
  rewrite Hc, H. reflexivity.
Qed.

(** Nor does a response that does not announce a success. *)
Lemma get_available_currencies_unsuccessful (E : environment) (s : state)
    (d : list (string * pyval)) :
  py_truthy (available_currencies s) = false ->
  remote E (List.length (requests_made s)) (url_of Symbols) = Json (PDict d) ->
  match dict_lookup "success" d with
  | Some flag => py_truthy flag = false
  | None => True
  end ->
  get_available_currencies E s = (Ret PNone, logged Symbols s).
Proof.
  intros Hc H Hflag. unfold get_available_currencies. unfold_m.
  rewrite Hc, H. simpl.
  destruct (dict_lookup "success" d); simpl.
  - rewrite Hflag. reflexivity.
  - reflexivity.
Qed.

(** C4: a code is reported valid exactly when it is a key of the catalog
    that [get_available_currencies] hands over; when it hands over no
    catalog, every code is reported invalid. *)
Theorem validate_currency_iff_catalog_key
    (E : environment) (code : string) (s s' : state) (catalog : pyval) :
  get_available_currencies E s = (Ret catalog, s') ->
  is_catalog catalog ->
  exists b,
    validate_currency E code s = (Ret b, s') /\
    (b = true <-> In code (catalog_keys catalog)) /\
    (catalog = PNone -> b = false).
Proof.
  intros Hget Hcat. unfold validate_currency, bind. rewrite Hget.
  destruct Hcat as [-> | [d ->]].
  - exists false. simpl. repeat split; try tauto; discriminate.
  - destruct d as [| kv d].
    + exists false. simpl. repeat split; try tauto; discriminate.
    + exists (dict_has code (kv :: d)). split; [reflexivity |]. split.
      * apply dict_has_In.
      * discriminate.
Qed.

Lemma validate_currency_iff_catalog_key_witness :
  get_available_currencies (demo_env "USD" []) fresh_converter
    = (Ret demo_symbols,
       set_available_currencies demo_symbols (logged Symbols fresh_converter)) /\
  is_catalog demo_symbols /\
  exists b,
    validate_currency (demo_env "USD" []) "EUR" fresh_converter
      = (Ret b,
         set_available_currencies demo_symbols (logged Symbols fresh_converter)) /\
    (b = true <-> In "EUR" (catalog_keys demo_symbols)) /\
    (demo_symbols = PNone -> b = false).
Proof.
  assert (Hcat : is_catalog demo_symbols) by (right; eexists; reflexivity).
  split; [reflexivity |]. split; [exact Hcat |].
  apply (validate_currency_iff_catalog_key (demo_env "USD" []) "EUR"
           fresh_converter _ demo_symbols); [reflexivity | exact Hcat].
Defined.

(** ** The rate that is returned (C6) *)

(** C6, as it fails: the service answers a rate request with a negative
    number, and that number is what [get_exchange_rate] returns. *)
Lemma returned_rate_need_not_be_positive : ~ returned_rates_are_positive.
Proof.
  intros H.
  specialize (H (demo_env "USD" [("EUR", PFloat (-1.5))]) "USD" "EUR"
                fresh_converter (logged (Latest "USD" "EUR") fresh_converter)
                (PFloat (-1.5)) eq_refl).
  assert (Hnone : PFloat (-1.5) <> PNone) by discriminate.
  specialize (H Hnone). vm_compute in H. discriminate.
Qed.

(** C6, amended: on a response that keeps to the interface of the rate
    endpoint, [get_exchange_rate] returns the entry listed for the target
    as it was received, and [None] when the request failed, the response
    says it was not a success, or no rate is listed for the target. *)
Theorem get_exchange_rate_returns_listed_rate
    (E : environment) (base target : string) (s : state) :
  keeps_rate_interface
    (remote E (List.length (requests_made s)) (url_of (Latest base target))) ->
  get_exchange_rate E base target s =
    (Ret (match listed_rate
                  (remote E (List.length (requests_made s))
                     (url_of (Latest base target))) target with
          | Some rate => rate
          | None => PNone
          end),
     logged (Latest base target) s).
Proof.
  intros Hshape. unfold get_exchange_rate. unfold_m.
  destruct (remote E (List.length (requests_made s))
              (url_of (Latest base target))) as [| data]; [reflexivity |].
  destruct data as [| | | | | | d]; simpl in Hshape; try contradiction.
  simpl.
  assert (Hflag :
    py_truthy match dict_lookup "success" d with
              | Some x => x
              | None => PBool true
              end
    = match dict_lookup "success" d with
      | Some flag => py_truthy flag
      | None => true
      end) by (destruct (dict_lookup "success" d); reflexivity).
  destruct (dict_lookup "success" d) as [flag |]; simpl;
    [destruct (py_truthy flag); simpl; [| reflexivity] |];
    unfold dict_has;
    (destruct (dict_lookup "rates" d) as [rates |]; simpl; [| reflexivity];
     destruct rates as [| | | | | | r]; try contradiction; simpl;
     unfold dict_has; destruct (dict_lookup target r); reflexivity).
Qed.

Lemma get_exchange_rate_returns_listed_rate_witness :
  keeps_rate_interface
    (remote (demo_env "USD" [("EUR", PFloat 0.5)])
       (List.length (requests_made fresh_converter))
       (url_of (Latest "USD" "EUR"))) /\
  get_exchange_rate (demo_env "USD" [("EUR", PFloat 0.5)]) "USD" "EUR"
    fresh_converter
    = (Ret (match listed_rate
                    (remote (demo_env "USD" [("EUR", PFloat 0.5)])
                       (List.length (requests_made fresh_converter))
                       (url_of (Latest "USD" "EUR"))) "EUR" with
            | Some rate => rate
            | None => PNone
            end),
       logged (Latest "USD" "EUR") fresh_converter).
Proof.
  assert (H : keeps_rate_interface
                (remote (demo_env "USD" [("EUR", PFloat 0.5)])
                   (List.length (requests_made fresh_converter))
                   (url_of (Latest "USD" "EUR")))) by exact I.
  split; [exact H |].
  exact (get_exchange_rate_returns_listed_rate
           (demo_env "USD" [("EUR", PFloat 0.5)]) "USD" "EUR" fresh_converter H).
Defined.

(** ** Recording and saving a conversion (C2) *)

(** C2, as it fails: converting USD to USD returns a record which is
    neither in the history nor on the disk. *)
Lemma same_currency_conversion_is_not_recorded : ~ every_conversion_is_recorded.
Proof.
  intros H.
  specialize (H (demo_env "USD" []) "USD" "USD" 100%float fresh_converter).
  specialize (H _ _ [] eq_refl eq_refl eq_refl).
  destruct H as [(l & Hl & Hin) _]; [discriminate |].
  vm_compute in Hl. injection Hl as <-.
  exact (Hin _ (or_introl eq_refl)).
Qed.

(** C2, amended: a conversion to a target other than the base whose rate
    has been had appends its record to the history, which is cut to its
    last ten records, and the history is then written to the history file;
    when the disk takes the write, the file holds the dump of the history
    as the call leaves it. *)
Theorem conversion_is_recorded_and_saved
    (E : environment) (base target : string) (amount : float)
    (results : list pyval) (s s1 : state) (rate converted : pyval)
    (l : list pyval) :
  base <> target ->
  get_exchange_rate E base target s = (Ret rate, s1) ->
  rate <> PNone ->
  float_mul amount rate = Ret converted ->
  conversions_of (history s) = Some l ->
  exists record s2,
    record = make_record base target (PFloat amount) converted rate
               (now_isoformat E (clock_reads s)) /\
    convert_one E base amount target results s
      = (Ret (results ++ [record]), s2) /\
    conversions_of (history s2) = Some (last_n 10 (l ++ [record])) /\
    storage s2 = snd (write_text (storage s) (json_dumps E (history s2))) /\
    (on_write (storage s) = WriteOk ->
     exists readable,
       history_file (storage s2)
         = Present readable (json_dumps E (history s2))).
Proof.
  intros Hneq Hrate Hnone Hmul Hconv.
  pose proof (get_exchange_rate_state _ _ _ _ _ _ Hrate) as Hs1.
  set (record := make_record base target (PFloat amount) converted rate
                   (now_isoformat E (clock_reads s))).
  destruct (add_to_history_conversions (history s) record l Hconv)
    as (h' & Hadd & Hconv').
  exists record.
  exists (set_storage (snd (write_text (storage s) (json_dumps E h')))
            (set_history h' (ticked s1))).
  split; [reflexivity |].
  assert (Hrun :
    convert_one E base amount target results s
    = (Ret (results ++ [record]),
       set_storage (snd (write_text (storage s) (json_dumps E h')))
         (set_history h' (ticked s1)))).
  { unfold convert_one. apply String.eqb_neq in Hneq. rewrite Hneq.
    unfold bind at 1. rewrite Hrate.
    assert (Hrest :
      (converted_amount <- lift (float_mul amount rate) ;;
       timestamp <- datetime_now E ;;
       h <- gets history ;;
       h'0 <- lift (add_to_history h
                      (make_record base target (PFloat amount)
                         converted_amount rate timestamp)) ;;
       modify (set_history h'0) ;;;
       _save_history E ;;;
       ret (results ++
            [make_record base target (PFloat amount) converted_amount rate
               timestamp])) s1
      = (Ret (results ++ [record]),
         set_storage (snd (write_text (storage s) (json_dumps E h')))
           (set_history h' (ticked s1)))).
    { unfold_m. rewrite Hmul. subst s1. simpl.
      fold record. rewrite Hadd. rewrite save_history_state. reflexivity. }
    destruct rate; try exact Hrest. congruence. }
  split; [exact Hrun |].
  split; [exact Hconv' |].
  split; [subst s1; reflexivity |].
  intros Hok. simpl. subst s1. unfold write_text. simpl. rewrite Hok.
  simpl. eauto.
Qed.

Lemma conversion_is_recorded_and_saved_witness :
  "USD" <> "EUR" /\
  get_exchange_rate (demo_env "USD" [("EUR", PFloat 0.5)]) "USD" "EUR"
    (converter_with 0 10)
    = (Ret (PFloat 0.5), logged (Latest "USD" "EUR") (converter_with 0 10)) /\
  PFloat 0.5 <> PNone /\
  float_mul 100 (PFloat 0.5) = Ret (PFloat 50) /\
  conversions_of (history (converter_with 0 10)) = Some (demo_records 0 10) /\
  exists record s2,
    record = make_record "USD" "EUR" (PFloat 100) (PFloat 50) (PFloat 0.5)
               (now_isoformat (demo_env "USD" [("EUR", PFloat 0.5)])
                  (clock_reads (converter_with 0 10))) /\
    convert_one (demo_env "USD" [("EUR", PFloat 0.5)]) "USD" 100 "EUR" []
      (converter_with 0 10)
      = (Ret ([] ++ [record]), s2) /\
    conversions_of (history s2)
      = Some (last_n 10 (demo_records 0 10 ++ [record])) /\
    storage s2
      = snd (write_text (storage (converter_with 0 10))
               (json_dumps (demo_env "USD" [("EUR", PFloat 0.5)]) (history s2))) /\
    (on_write (storage (converter_with 0 10)) = WriteOk ->
     exists readable,
       history_file (storage s2)
         = Present readable
             (json_dumps (demo_env "USD" [("EUR", PFloat 0.5)]) (history s2))).
Proof.
  assert (H1 : "USD" <> "EUR") by discriminate.
  assert (H2 : get_exchange_rate (demo_env "USD" [("EUR", PFloat 0.5)])
                 "USD" "EUR" (converter_with 0 10)
               = (Ret (PFloat 0.5),
                  logged (Latest "USD" "EUR") (converter_with 0 10)))
    by reflexivity.
  assert (H3 : PFloat 0.5 <> PNone) by discriminate.
  assert (H4 : float_mul 100 (PFloat 0.5) = Ret (PFloat 50)) by reflexivity.
  assert (H5 : conversions_of (history (converter_with 0 10))
               = Some (demo_records 0 10)) by reflexivity.
  split; [exact H1 |]. split; [exact H2 |]. split; [exact H3 |].
  split; [exact H4 |]. split; [exact H5 |].
  exact (conversion_is_recorded_and_saved
           (demo_env "USD" [("EUR", PFloat 0.5)]) "USD" "EUR" 100 []
           (converter_with 0 10) _ (PFloat 0.5) (PFloat 50) (demo_records 0 10)
           H1 H2 H3 H4 H5).
Defined.

(** ** Loading a missing or damaged file (C5) *)

(** The cases the [except] clause of [_load_history] covers: no file, a
    file that cannot be opened, and text that [json.loads] rejects with a
    [JSONDecodeError]. *)
Lemma load_history_handled (E : environment) (d : disk) :
  history_file d = Absent \/
  (exists bytes, history_file d = Present false bytes) \/
  (exists bytes text,
      history_file d = Present true bytes /\
      read_text bytes = Ret text /\
      json_loads E text = Raise JSONDecodeError) ->
  _load_history E d = Ret empty_history.
Proof.
  unfold _load_history, path_exists, open_read, json_load.
  intros [H | [[bytes H] | (bytes & text & H & Hread & Hloads)]];
    rewrite H; simpl; try reflexivity.
  rewrite Hread. simpl. rewrite Hloads. reflexivity.
Qed.

(** C5, at the failing input: the history file exists and holds bytes that
    are not text in the file's encoding; reading them raises
    [UnicodeDecodeError], which the [except] clause does not name, and
    [_load_history] raises it to its caller, the constructor. *)
Theorem load_history_raises_on_undecodable_file (E : environment) :
  _load_history E (disk_with undecodable_file) = Raise UnicodeDecodeError /\
  init E (disk_with undecodable_file) = Raise UnicodeDecodeError.
Proof.
  split; reflexivity.
Qed.

(** ** Loading keeps every record (C9) *)

(** C9: a file that can be read and whose text [json.loads] accepts is
    loaded as it is: the history of the new converter is the decoded value
    with all its records in their order, more than ten if the file has
    more than ten. *)
Theorem load_history_keeps_every_record
    (E : environment) (d : disk) (bytes text : string) (v : pyval)
    (records : list pyval) :
  history_file d = Present true bytes ->
  read_text bytes = Ret text ->
  json_loads E text = Ret v ->
  conversions_of v = Some records ->
  _load_history E d = Ret v /\
  exists s,
    init E d = Ret s /\
    history s = v /\
    conversions_of (history s) = Some records /\
    (10 < List.length records ->
     forall l, conversions_of (history s) = Some l -> 10 < List.length l).
Proof.
  intros Hfile Hread Hloads Hconv.
  assert (Hload : _load_history E d = Ret v).
  { unfold _load_history, path_exists, open_read, json_load.
    rewrite Hfile. simpl. rewrite Hread. simpl. rewrite Hloads. reflexivity. }
  split; [exact Hload |].
  unfold init. rewrite Hload. simpl.
  eexists. split; [reflexivity |]. simpl.
  split; [reflexivity |]. split; [exact Hconv |].
  intros Hlen l Hl. rewrite Hconv in Hl. injection Hl as <-. exact Hlen.
Qed.

Lemma load_history_keeps_every_record_witness :
  history_file (disk_with eleven_records_file)
    = Present true
        (Json.dumps (PDict [("conversions", PList (demo_records 0 11))])) /\
  read_text (Json.dumps (PDict [("conversions", PList (demo_records 0 11))]))
    = Ret (Json.dumps (PDict [("conversions", PList (demo_records 0 11))])) /\
  json_loads (demo_env "USD" [])
    (Json.dumps (PDict [("conversions", PList (demo_records 0 11))]))
    = Ret (PDict [("conversions", PList (demo_records 0 11))]) /\
  conversions_of (PDict [("conversions", PList (demo_records 0 11))])
    = Some (demo_records 0 11) /\
  _load_history (demo_env "USD" []) (disk_with eleven_records_file)
    = Ret (PDict [("conversions", PList (demo_records 0 11))]) /\
  exists s,
    init (demo_env "USD" []) (disk_with eleven_records_file) = Ret s /\
    history s = PDict [("conversions", PList (demo_records 0 11))] /\
    conversions_of (history s) = Some (demo_records 0 11) /\
    (10 < List.length (demo_records 0 11) ->
     forall l, conversions_of (history s) = Some l -> 10 < List.length l).
Proof.
  assert (H1 : history_file (disk_with eleven_records_file)
               = Present true
                   (Json.dumps
                      (PDict [("conversions", PList (demo_records 0 11))])))
    by reflexivity.
  assert (H2 : read_text
                 (Json.dumps (PDict [("conversions", PList (demo_records 0 11))]))
               = Ret (Json.dumps
                        (PDict [("conversions", PList (demo_records 0 11))])))
    by (vm_compute; reflexivity).
  assert (H3 : json_loads (demo_env "USD" [])
                 (Json.dumps (PDict [("conversions", PList (demo_records 0 11))]))
               = Ret (PDict [("conversions", PList (demo_records 0 11))]))
    by (vm_compute; reflexivity).
  assert (H4 : conversions_of (PDict [("conversions", PList (demo_records 0 11))])
               = Some (demo_records 0 11)) by reflexivity.
  split; [exact H1 |]. split; [exact H2 |].
  split; [exact H3 |]. split; [exact H4 |].
  exact (load_history_keeps_every_record (demo_env "USD" [])
           (disk_with eleven_records_file) _ _ _ _ H1 H2 H3 H4).
Defined.

(** ** Saving and loading again (C7) *)

(** C7: when the disk takes the write and lets the file be read, and the
    json module reads back the text it wrote for the history, saving the
    history and loading it again gives the history that was saved, record
    for record; so does constructing a new converter over the disk. *)
Theorem save_then_load_round_trip (E : environment) (s : state) :
  on_write (storage s) = WriteOk ->
  readable_after_write (history_file (storage s)) = true ->
  read_text (json_dumps E (history s)) = Ret (json_dumps E (history s)) ->
  json_loads E (json_dumps E (history s)) = Ret (history s) ->
  exists s',
    _save_history E s = (Ret tt, s') /\
    history s' = history s /\
    history_file (storage s') = Present true (json_dumps E (history s)) /\
    _load_history E (storage s') = Ret (history s) /\
    exists s'',
      init E (storage s') = Ret s'' /\
      history s'' = history s /\
      conversions_of (history s'') = conversions_of (history s).
Proof.
  intros Hok Hreadable Hread Hloads.
  exists (set_storage (snd (write_text (storage s) (json_dumps E (history s)))) s).
  split; [apply save_history_state |].
  split; [reflexivity |].
  assert (Hfile :
    history_file
      (storage
         (set_storage (snd (write_text (storage s) (json_dumps E (history s)))) s))
    = Present true (json_dumps E (history s))).
  { simpl. unfold write_text. rewrite Hok, Hreadable. reflexivity. }
  assert (Hload :
    _load_history E
      (storage
         (set_storage (snd (write_text (storage s) (json_dumps E (history s)))) s))
    = Ret (history s)).
  { unfold _load_history, path_exists, open_read, json_load.
    rewrite Hfile. simpl. rewrite Hread. simpl. rewrite Hloads. reflexivity. }
  split; [exact Hfile |]. split; [exact Hload |].
  unfold init. rewrite Hload. simpl.
  eexists. split; [reflexivity |]. split; reflexivity.
Qed.

Lemma save_then_load_round_trip_witness :
  on_write (storage (converter_with 0 3)) = WriteOk /\
  readable_after_write (history_file (storage (converter_with 0 3))) = true /\
  read_text (json_dumps (demo_env "USD" []) (history (converter_with 0 3)))
    = Ret (json_dumps (demo_env "USD" []) (history (converter_with 0 3))) /\
  json_loads (demo_env "USD" [])
    (json_dumps (demo_env "USD" []) (history (converter_with 0 3)))
    = Ret (history (converter_with 0 3)) /\
  exists s',
    _save_history (demo_env "USD" []) (converter_with 0 3) = (Ret tt, s') /\
    history s' = history (converter_with 0 3) /\
    history_file (storage s')
      = Present true
          (json_dumps (demo_env "USD" []) (history (converter_with 0 3))) /\
    _load_history (demo_env "USD" []) (storage s')
      = Ret (history (converter_with 0 3)) /\
    exists s'',
      init (demo_env "USD" []) (storage s') = Ret s'' /\
      history s'' = history (converter_with 0 3) /\
      conversions_of (history s'')
        = conversions_of (history (converter_with 0 3)).
Proof.
  assert (H1 : on_write (storage (converter_with 0 3)) = WriteOk)
    by reflexivity.
  assert (H2 : readable_after_write
                 (history_file (storage (converter_with 0 3))) = true)
    by reflexivity.
  assert (H3 : read_text
                 (json_dumps (demo_env "USD" []) (history (converter_with 0 3)))
               = Ret (json_dumps (demo_env "USD" [])
                        (history (converter_with 0 3))))
    by (vm_compute; reflexivity).
  assert (H4 : json_loads (demo_env "USD" [])
                 (json_dumps (demo_env "USD" []) (history (converter_with 0 3)))
               = Ret (history (converter_with 0 3)))
    by (vm_compute; reflexivity).
  split; [exact H1 |]. split; [exact H2 |].
  split; [exact H3 |]. split; [exact H4 |].
  exact (save_then_load_round_trip (demo_env "USD" []) (converter_with 0 3)
           H1 H2 H3 H4).
Defined.

(** ** The scenarios of the specification *)

(** Catalog USD, EUR, GBP; rates 0.9 to EUR and 0.8 to GBP (the doubles
    nearest to them); [convert("USD", ["EUR", "XXX", "GBP"], 100)] returns
    the two records, and they are the history. *)
Example scenario_invalid_target_is_left_out :
  let E := demo_env "USD" [("EUR", PFloat 0x1.ccccccccccccdp-1);
                            ("GBP", PFloat 0x1.999999999999ap-1)] in
  let run := convert_currency E "USD" ["EUR"; "XXX"; "GBP"] 100 fresh_converter in
  fst run
  = Ret [make_record "USD" "EUR" (PFloat 100) (PFloat 90)
           (PFloat 0x1.ccccccccccccdp-1) (demo_clock 0);
         make_record "USD" "GBP" (PFloat 100) (PFloat 80)
           (PFloat 0x1.999999999999ap-1) (demo_clock 1)] /\
  obind (fst run) (fun results => Ret (Some results))
  = Ret (conversions_of (history (snd run))) /\
  requests_made (snd run) = [Symbols; Latest "USD" "EUR"; Latest "USD" "GBP"].
Proof.
  vm_compute. repeat split.
Qed.

(** [convert("ZZZ", ["EUR"], 50)]: nothing is returned, the history is
    not touched and no rate is requested. *)
Example scenario_invalid_base :
  let E := demo_env "USD" [("EUR", PFloat 0x1.ccccccccccccdp-1)] in
  let run := convert_currency E "ZZZ" ["EUR"] 50 fresh_converter in
  fst run = Ret [] /\
  history (snd run) = history fresh_converter /\
  storage (snd run) = storage fresh_converter /\
  rate_requests (requests_made (snd run)) = [].
Proof.
  vm_compute. repeat split.
Qed.

(** The rate to GBP cannot be had: EUR is converted, GBP is left out and
    the call returns. *)
Example scenario_rate_unavailable :
  let E := demo_env "USD" [("EUR", PFloat 0.5)] in
  let run := convert_currency E "USD" ["GBP"; "EUR"] 100 fresh_converter in
  fst run
  = Ret [make_record "USD" "EUR" (PFloat 100) (PFloat 50) (PFloat 0.5)
           (demo_clock 0)] /\
  conversions_of (history (snd run))
  = Some [make_record "USD" "EUR" (PFloat 100) (PFloat 50) (PFloat 0.5)
            (demo_clock 0)].
Proof.
  vm_compute. repeat split.
Qed.

(** A file of eleven records is loaded whole; the first conversion that
    is appended cuts the history to ten: the records 2 to 10 of the file
    and the new one. *)
Example scenario_long_file_is_cut_at_first_append :
  let E := demo_env "USD" [("EUR", PFloat 0.5)] in
  exists s results s',
    init E (disk_with eleven_records_file) = Ret s /\
    conversions_of (history s) = Some (demo_records 0 11) /\
    convert_currency E "USD" ["EUR"] 100 s = (Ret results, s') /\
    conversions_of (history s') = Some (demo_records 2 9 ++ results) /\
    List.length results = 1.
Proof.
  eexists. eexists. eexists.
  split; [vm_compute; reflexivity |].
  split; [vm_compute; reflexivity |].
  split; [vm_compute; reflexivity |].
  vm_compute. split; reflexivity.
Qed.

(** * Further properties *)

(** ** The catalog cache *)

(** After a call, the attribute holds what the call returned, unless the
    call returned [None] and left the attribute as it was. *)
Lemma get_available_currencies_attribute (E : environment) (s s' : state)
    (c : pyval) :
  get_available_currencies E s = (Ret c, s') ->
  py_truthy c = true ->
  available_currencies s' = c.
Proof.
  unfold get_available_currencies. unfold_m.
  repeat (case_scrutinee; simpl); intros H Hc;
    try discriminate; injection H as H1 H2; subst; simpl; try reflexivity;
    discriminate.
Qed.

(** X1: once [get_available_currencies] has returned a catalog that is not
    empty, every later call returns the same catalog from memory, without a
    request and without any other change. *)
Theorem catalog_is_fetched_once (E : environment) (s s1 : state) (c : pyval) :
  get_available_currencies E s = (Ret c, s1) ->
  py_truthy c = true ->
  get_available_currencies E s1 = (Ret c, s1) /\
  forall code, validate_currency E code s1 = (py_in code c, s1).
Proof.
  intros Hget Hc.
  pose proof (get_available_currencies_attribute E s s1 c Hget Hc) as Hattr.
  assert (Htruthy : py_truthy (available_currencies s1) = true) by congruence.
  split.
  - unfold get_available_currencies. unfold_m. rewrite Htruthy, Hattr.
    reflexivity.
  - intros code. rewrite (validate_currency_cached E code s1 Htruthy), Hattr.
    reflexivity.
Qed.

Lemma catalog_is_fetched_once_witness :
  get_available_currencies (demo_env "USD" []) fresh_converter
    = (Ret demo_symbols,
       set_available_currencies demo_symbols (logged Symbols fresh_converter)) /\
  py_truthy demo_symbols = true /\
  get_available_currencies (demo_env "USD" [])
    (set_available_currencies demo_symbols (logged Symbols fresh_converter))
    = (Ret demo_symbols,
       set_available_currencies demo_symbols (logged Symbols fresh_converter)) /\
  forall code,
    validate_currency (demo_env "USD" []) code
      (set_available_currencies demo_symbols (logged Symbols fresh_converter))
    = (py_in code demo_symbols,
       set_available_currencies demo_symbols (logged Symbols fresh_converter)).
Proof.
  assert (H1 : get_available_currencies (demo_env "USD" []) fresh_converter
               = (Ret demo_symbols,
                  set_available_currencies demo_symbols
                    (logged Symbols fresh_converter))) by reflexivity.
  assert (H2 : py_truthy demo_symbols = true) by reflexivity.
  split; [exact H1 |]. split; [exact H2 |].
  exact (catalog_is_fetched_once (demo_env "USD" []) fresh_converter _
           demo_symbols H1 H2).
Defined.

(** X2: while the attribute holds no catalog, or an empty one (a
    successful response may list no symbol), every call sends a request for
    the symbols: an empty catalog is never served from memory. *)
Theorem empty_catalog_is_fetched_again (E : environment) (s s' : state)
    (r : outcome pyval) :
  py_truthy (available_currencies s) = false ->
  get_available_currencies E s = (r, s') ->
  requests_made s' = requests_made s ++ [Symbols].
Proof.
  intros Hc. unfold get_available_currencies. unfold_m. rewrite Hc.
  repeat (case_scrutinee; simpl); intros H; injection H as H1 H2; subst;
    reflexivity.
Qed.

Lemma empty_catalog_is_fetched_again_witness :
  py_truthy (available_currencies (set_available_currencies (PDict []) fresh_converter))
    = false /\
  get_available_currencies (demo_env "USD" [])
    (set_available_currencies (PDict []) fresh_converter)
    = (Ret demo_symbols,
       set_available_currencies demo_symbols
         (logged Symbols (set_available_currencies (PDict []) fresh_converter))) /\
  requests_made
    (set_available_currencies demo_symbols
       (logged Symbols (set_available_currencies (PDict []) fresh_converter)))
    = requests_made (set_available_currencies (PDict []) fresh_converter)
        ++ [Symbols].
Proof.
  assert (H1 : py_truthy (available_currencies
                            (set_available_currencies (PDict []) fresh_converter))
               = false) by reflexivity.
  assert (H2 : get_available_currencies (demo_env "USD" [])
                 (set_available_currencies (PDict []) fresh_converter)
               = (Ret demo_symbols,
                  set_available_currencies demo_symbols
                    (logged Symbols
                       (set_available_currencies (PDict []) fresh_converter))))
    by reflexivity.
  split; [exact H1 |]. split; [exact H2 |].
  exact (empty_catalog_is_fetched_again (demo_env "USD" []) _ _ _ H1 H2).
Defined.

(** ** The targets a call works on *)

(** X3: when the base currency is not valid the call returns no record at
    once: the targets are not looked at, no rate is requested, the clock is
    not read, history and disk stay as they are. *)
Theorem invalid_base_aborts_call
    (E : environment) (base : string) (targets : list string) (amount : float)
    (s s1 : state) :
  validate_currency E base s = (Ret false, s1) ->
  convert_currency E base targets amount s = (Ret [], s1) /\
  history s1 = history s /\
  storage s1 = storage s /\
  clock_reads s1 = clock_reads s /\
  rate_requests (requests_made s1) = rate_requests (requests_made s).
Proof.
  intros Hv. split.
  - unfold convert_currency, bind. rewrite Hv. reflexivity.
  - apply validate_currency_frame in Hv. exact Hv.
Qed.

Lemma invalid_base_aborts_call_witness :
  validate_currency (demo_env "USD" []) "ZZZ" fresh_converter
    = (Ret false,
       set_available_currencies demo_symbols (logged Symbols fresh_converter)) /\
  convert_currency (demo_env "USD" []) "ZZZ" ["EUR"] 50 fresh_converter
    = (Ret [],
       set_available_currencies demo_symbols (logged Symbols fresh_converter)) /\
  history (set_available_currencies demo_symbols (logged Symbols fresh_converter))
    = history fresh_converter /\
  storage (set_available_currencies demo_symbols (logged Symbols fresh_converter))
    = storage fresh_converter /\
  clock_reads (set_available_currencies demo_symbols (logged Symbols fresh_converter))
    = clock_reads fresh_converter /\
  rate_requests
    (requests_made
       (set_available_currencies demo_symbols (logged Symbols fresh_converter)))
    = rate_requests (requests_made fresh_converter).
Proof.
  assert (H : validate_currency (demo_env "USD" []) "ZZZ" fresh_converter
              = (Ret false,
                 set_available_currencies demo_symbols
                   (logged Symbols fresh_converter))) by reflexivity.
  split; [exact H |].
  exact (invalid_base_aborts_call (demo_env "USD" []) "ZZZ" ["EUR"] 50
           fresh_converter _ H).
Defined.

(** With a catalog in the cache in which some code was found, the invalid
    targets are those the catalog does not have. *)
Lemma invalid_targets_cached (E : environment) (s : state) (code : string)
    (targets : list string) :
  py_truthy (available_currencies s) = true ->
  py_in code (available_currencies s) = Ret true ->
  invalid_targets E targets s
  = (Ret (filter (fun c => negb (valid_in (available_currencies s) c)) targets),
     s).
Proof.
  intros Hc Hin.
  assert (Hret : forall c, py_in c (available_currencies s)
                           = Ret (valid_in (available_currencies s) c)).
  { intros c. unfold valid_in.
    destruct (available_currencies s); simpl in *;
      try discriminate; reflexivity. }
  induction targets as [| c rest IH]; simpl.
  - reflexivity.
  - unfold bind. rewrite (validate_currency_cached E c s Hc), Hret.
    unfold bind in IH. rewrite IH. unfold ret.
    destruct (valid_in (available_currencies s) c); reflexivity.
Qed.

Lemma filter_none_rejected {A : Type} (f : A -> bool) (l : list A) :
  filter (fun x => negb (f x)) l = [] -> filter f l = l.
Proof.
  induction l as [| x l IH]; simpl; [reflexivity |].
  destruct (f x); simpl; [| discriminate].
  intros H. rewrite IH by exact H. reflexivity.
Qed.

Lemma filter_not_among_rejected (f : string -> bool) (l : list string) :
  filter (fun c => negb (existsb (String.eqb c)
                           (filter (fun x => negb (f x)) l))) l
  = filter f l.
Proof.
  apply List.filter_ext_in. intros c Hc.
  destruct (f c) eqn:Hf.
  - apply negb_true_iff.
    destruct (existsb (String.eqb c) (filter (fun x => negb (f x)) l)) eqn:Hex;
      [| reflexivity].
    apply List.existsb_exists in Hex as (x & Hx & Heq).
    apply String.eqb_eq in Heq. subst x.
    apply List.filter_In in Hx as [_ Hx]. rewrite Hf in Hx. discriminate.
  - apply negb_false_iff. apply List.existsb_exists.
    exists c. split; [| apply String.eqb_refl].
    apply List.filter_In. rewrite Hf. auto.
Qed.

(** With the base found valid, what follows the validation of the base in
    [convert_currency] is the loop over the targets the catalog has. *)
Lemma loop_after_validation
    (E : environment) (base : string) (targets : list string) (amount : float)
    (s1 : state) :
  py_truthy (available_currencies s1) = true ->
  py_in base (available_currencies s1) = Ret true ->
  (invalid <- invalid_targets E targets ;;
   match invalid with
   | [] => for_each_target E base amount targets []
   | _ :: _ =>
       match filter (fun c => negb (existsb (String.eqb c) invalid)) targets with
       | [] => ret []
       | _ :: _ =>
           for_each_target E base amount
             (filter (fun c => negb (existsb (String.eqb c) invalid)) targets) []
       end
   end) s1
  = for_each_target E base amount
      (filter (valid_in (available_currencies s1)) targets) [] s1.
Proof.
  intros Hc Hin. unfold bind at 1.
  rewrite (invalid_targets_cached E s1 base targets Hc Hin).
  destruct (filter (fun c => negb (valid_in (available_currencies s1) c)) targets)
    as [| c invalid] eqn:Hinv.
  - rewrite (filter_none_rejected _ _ Hinv). reflexivity.
  - rewrite <- Hinv, filter_not_among_rejected.
    destruct (filter (valid_in (available_currencies s1)) targets);
      reflexivity.
Qed.

(** X4: when the base currency is valid, the call is the loop over the
    targets that the catalog has, in the order they were given, started
    with no result; the other targets are left out and nothing more is
    fetched to find them. *)
Theorem call_loops_over_valid_targets
    (E : environment) (base : string) (targets : list string) (amount : float)
    (s s1 : state) :
  validate_currency E base s = (Ret true, s1) ->
  convert_currency E base targets amount s
  = for_each_target E base amount
      (filter (valid_in (available_currencies s1)) targets) [] s1.
Proof.
  intros Hv.
  destruct (validate_currency_true_cached E base s s1 Hv) as [Hc Hin].
  unfold convert_currency. unfold bind at 1. rewrite Hv. cbn [negb].
  apply loop_after_validation; assumption.
Qed.

Lemma call_loops_over_valid_targets_witness :
  validate_currency (demo_env "USD" [("EUR", PFloat 0.5)]) "USD" fresh_converter
    = (Ret true,
       set_available_currencies demo_symbols (logged Symbols fresh_converter)) /\
  convert_currency (demo_env "USD" [("EUR", PFloat 0.5)]) "USD"
    ["XXX"; "EUR"; "YYY"] 100 fresh_converter
  = for_each_target (demo_env "USD" [("EUR", PFloat 0.5)]) "USD" 100
      (filter
         (valid_in
            (available_currencies
               (set_available_currencies demo_symbols
                  (logged Symbols fresh_converter))))
         ["XXX"; "EUR"; "YYY"])
      [] (set_available_currencies demo_symbols (logged Symbols fresh_converter)).
Proof.
  assert (H : validate_currency (demo_env "USD" [("EUR", PFloat 0.5)]) "USD"
                fresh_converter
              = (Ret true,
                 set_available_currencies demo_symbols
                   (logged Symbols fresh_converter))) by reflexivity.
  split; [exact H |].
  exact (call_loops_over_valid_targets (demo_env "USD" [("EUR", PFloat 0.5)])
           "USD" ["XXX"; "EUR"; "YYY"] 100 fresh_converter _ H).
Defined.

(** ** What the loop does, target by target *)

Lemma float_mul_float (amount : float) (rate converted : pyval) :
  float_mul amount rate = Ret converted -> exists f, converted = PFloat f.
Proof.
  destruct rate; simpl; try discriminate.
  - intros H. injection H as <-. eauto.
  - destruct (float_of_int z); simpl; [| discriminate].
    intros H. injection H as <-. eauto.
  - intros H. injection H as <-. eauto.
Qed.

(** The body of the loop, when it returns: at most one record is added, of
    the base, the amount and the target; a rate is requested exactly when
    the target is not the base; the clock is read once for a record. *)
Lemma convert_one_effects (E : environment) (base target : string)
    (amount : float) (results results' : list pyval) (s s' : state) :
  convert_one E base amount target results s = (Ret results', s') ->
  exists new,
    results' = results ++ new /\
    (new = [] \/ exists r, new = [r] /\ is_record_of base amount target r) /\
    requests_made s' = requests_made s
                         ++ map (Latest base) (foreign_targets base [target]) /\
    clock_reads s' = clock_reads s + List.length new /\
    available_currencies s' = available_currencies s.
Proof.
  unfold convert_one, foreign_targets. simpl.
  destruct (String.eqb base target) eqn:Heq; simpl.
  - apply String.eqb_eq in Heq. subst target. unfold_m.
    intros H. injection H as <- <-. eexists. split; [reflexivity |].
    split; [right; eexists; split; [reflexivity |]; repeat eexists |].
    simpl. rewrite List.app_nil_r, Nat.add_1_r. auto.
  - unfold bind at 1.
    destruct (get_exchange_rate E base target s) as [[rate | e] s1] eqn:Hrate;
      [| discriminate].
    apply get_exchange_rate_state in Hrate. subst s1.
    assert (Hrest :
      (converted_amount <- lift (float_mul amount rate) ;;
       timestamp <- datetime_now E ;;
       h <- gets history ;;
       h' <- lift (add_to_history h
                     (make_record base target (PFloat amount)
                        converted_amount rate timestamp)) ;;
       modify (set_history h') ;;;
       _save_history E ;;;
       ret (results ++
            [make_record base target (PFloat amount) converted_amount rate
               timestamp])) (logged (Latest base target) s)
      = (Ret results', s') ->
      exists new,
        results' = results ++ new /\
        (new = [] \/ exists r, new = [r] /\ is_record_of base amount target r) /\
        requests_made s' = requests_made s ++ [Latest base target] /\
        clock_reads s' = clock_reads s + List.length new /\
        available_currencies s' = available_currencies s).
    { unfold_m.
      destruct (float_mul amount rate) as [converted |] eqn:Hmul;
        [| discriminate].
      apply float_mul_float in Hmul as [f ->]. simpl.
      destruct (add_to_history (history s)
                  (make_record base target (PFloat amount) (PFloat f) rate
                     (now_isoformat E (clock_reads s)))) as [h' |];
        [| discriminate].
      rewrite save_history_state. intros H. injection H as <- <-.
      eexists. split; [reflexivity |].
      split; [right; eexists; split; [reflexivity |]; repeat eexists |].
      simpl. rewrite Nat.add_1_r. auto. }
    destruct rate; try exact Hrest.
    unfold ret. intros H. injection H as <- <-.
    exists []. rewrite List.app_nil_r, Nat.add_0_r. simpl. auto.
Qed.

Lemma subsequence_refl {A : Type} (l : list A) : subsequence l l.
Proof.
  induction l; constructor; assumption.
Qed.

Lemma subsequence_filter {A : Type} (f : A -> bool) (l : list A) :
  subsequence (filter f l) l.
Proof.
  induction l as [| x l IH]; simpl; [constructor |].
  destruct (f x); constructor; exact IH.
Qed.

(** The target written in a record. *)
Lemma is_record_of_target (base target : string) (amount : float) (r : pyval) :
  is_record_of base amount target r ->
  py_getitem r "target" = Ret (PStr target).
Proof.
  intros (c & rate & ts & ->). reflexivity.
Qed.

(** The loop, when it returns: the records added are records of the base
    and the amount, for targets of the list in their order, at most one
    for a target; a rate is requested once for each target other than
    the base, in order; the clock is read once for each record. *)
Lemma for_each_target_effects (E : environment) (base : string) (amount : float)
    (targets : list string) :
  forall (results results' : list pyval) (s s' : state),
    for_each_target E base amount targets results s = (Ret results', s') ->
    exists new served,
      results' = results ++ new /\
      subsequence served targets /\
      List.Forall2 (is_record_of base amount) served new /\
      requests_made s' = requests_made s
                           ++ map (Latest base) (foreign_targets base targets) /\
      clock_reads s' = clock_reads s + List.length new /\
      available_currencies s' = available_currencies s.
Proof.
  induction targets as [| target rest IH]; intros results results' s s'.
  - simpl. unfold ret. intros H. injection H as <- <-.
    exists [], []. rewrite !List.app_nil_r, Nat.add_0_r.
    repeat split; constructor.
  - simpl. unfold bind at 1.
    destruct (convert_one E base amount target results s)
      as [[results1 | e] s1] eqn:Hone; [| discriminate].
    intros Hrest.
    apply convert_one_effects in Hone
      as (new1 & -> & Hnew1 & Hreq1 & Hclk1 & Hav1).
    destruct (IH _ _ _ _ Hrest) as (new & served & -> & Hsub & Hall & Hreq & Hclk & Hav).
    assert (Hreqs :
      requests_made s' = requests_made s
        ++ map (Latest base) (foreign_targets base (target :: rest))).
    { rewrite Hreq, Hreq1, <- List.app_assoc, <- List.map_app.
      unfold foreign_targets. simpl.
      destruct (negb (String.eqb base target)); reflexivity. }
    destruct Hnew1 as [-> | (r & -> & Hr)].
    + exists new, served. rewrite List.app_nil_r.
      split; [reflexivity |]. split; [constructor; exact Hsub |].
      split; [exact Hall |]. split; [exact Hreqs |].
      simpl in Hclk1. split; [lia | congruence].
    + exists (r :: new), (target :: served).
      split; [rewrite <- List.app_assoc; reflexivity |].
      split; [constructor; exact Hsub |].
      split; [constructor; assumption |]. split; [exact Hreqs |].
      simpl in *. split; [lia | congruence].
Qed.

Lemma subsequence_trans {A : Type} (l2 l3 : list A) :
  subsequence l2 l3 -> forall l1, subsequence l1 l2 -> subsequence l1 l3.
Proof.
  induction 1 as [l | x l2 l3 H IH | x l2 l3 H IH]; intros l1 H1.
  - inversion H1. constructor.
  - constructor. apply IH. exact H1.
  - inversion H1; subst; constructor; apply IH; assumption.
Qed.

Lemma rate_requests_app (l l' : list request) :
  rate_requests (l ++ l') = rate_requests l ++ rate_requests l'.
Proof.
  apply List.filter_app.
Qed.

Lemma rate_requests_latest (base : string) (l : list string) :
  rate_requests (map (Latest base) l) = map (Latest base) l.
Proof.
  induction l; simpl; congruence.
Qed.

(** X5: a call on a valid base asks for exactly one rate for each valid
    target other than the base, in the order of the targets: none for the
    base itself or for an invalid target, and none twice.  It reads the
    clock once for each record it returns, and leaves the catalog in
    memory as the validation of the base left it. *)
Theorem one_rate_request_per_foreign_target
    (E : environment) (base : string) (targets : list string) (amount : float)
    (s s1 s' : state) (results : list pyval) :
  validate_currency E base s = (Ret true, s1) ->
  convert_currency E base targets amount s = (Ret results, s') ->
  rate_requests (requests_made s')
  = rate_requests (requests_made s)
      ++ map (Latest base)
           (foreign_targets base
              (filter (valid_in (available_currencies s1)) targets)) /\
  clock_reads s' = clock_reads s + List.length results /\
  available_currencies s' = available_currencies s1.
Proof.
  intros Hv Hrun.
  destruct (validate_currency_true_cached E base s s1 Hv) as [Hc Hin].
  destruct (validate_currency_frame E base s s1 _ Hv) as (_ & _ & Hclk1 & Hreq1).
  unfold convert_currency in Hrun. unfold bind at 1 in Hrun.
  rewrite Hv in Hrun. cbn [negb] in Hrun.
  rewrite (loop_after_validation E base targets amount s1 Hc Hin) in Hrun.
  apply for_each_target_effects in Hrun
    as (new & served & Hres & _ & _ & Hreq & Hclk & Hav).
  simpl in Hres. subst new.
  split; [| split; [lia | exact Hav]].
  rewrite Hreq, rate_requests_app, rate_requests_latest, Hreq1. reflexivity.
Qed.

Lemma one_rate_request_per_foreign_target_witness :
  validate_currency half_env "USD" fresh_converter
    = (Ret true, converter_with_catalog) /\
  mixed_call = (Ret mixed_results, snd mixed_call) /\
  rate_requests (requests_made (snd mixed_call))
  = rate_requests (requests_made fresh_converter)
      ++ map (Latest "USD")
           (foreign_targets "USD"
              (filter (valid_in (available_currencies converter_with_catalog))
                 ["XXX"; "EUR"; "USD"; "GBP"])) /\
  clock_reads (snd mixed_call)
  = clock_reads fresh_converter + List.length mixed_results /\
  available_currencies (snd mixed_call)
  = available_currencies converter_with_catalog.
Proof.
  assert (H1 : validate_currency half_env "USD" fresh_converter
               = (Ret true, converter_with_catalog)) by reflexivity.
  assert (H2 : mixed_call = (Ret mixed_results, snd mixed_call))
    by (vm_compute; reflexivity).
  split; [exact H1 |]. split; [exact H2 |].
  exact (one_rate_request_per_foreign_target half_env "USD"
           ["XXX"; "EUR"; "USD"; "GBP"] 100 fresh_converter
           converter_with_catalog (snd mixed_call) mixed_results H1 H2).
Defined.

(** X6: the records a call returns are records of the base and of the
    amount, each for a target that was given and that the catalog has, at
    most one for each such target and in the order of the targets. *)
Theorem results_follow_valid_targets
    (E : environment) (base : string) (targets : list string) (amount : float)
    (s s' : state) (results : list pyval) :
  convert_currency E base targets amount s = (Ret results, s') ->
  exists served,
    subsequence served (filter (valid_in (available_currencies s')) targets) /\
    subsequence served targets /\
    List.Forall2 (is_record_of base amount) served results /\
    List.length results <= List.length targets.
Proof.
  intros Hrun.
  assert (Hlen : forall (served l : list string),
             subsequence served l -> List.length served <= List.length l).
  { induction 1; simpl; lia. }
  unfold convert_currency in Hrun. unfold bind at 1 in Hrun.
  destruct (validate_currency E base s) as [[valid | e] s1] eqn:Hv;
    [| discriminate].
  destruct valid; cbn [negb] in Hrun.
  - destruct (validate_currency_true_cached E base s s1 Hv) as [Hc Hin].
    rewrite (loop_after_validation E base targets amount s1 Hc Hin) in Hrun.
    apply for_each_target_effects in Hrun
      as (new & served & Hres & Hsub & Hall & _ & _ & Hav).
    simpl in Hres. subst new. exists served. rewrite Hav.
    assert (Hsub' : subsequence served targets)
      by (eapply subsequence_trans; [apply subsequence_filter | exact Hsub]).
    repeat split; try assumption.
    rewrite <- (List.Forall2_length Hall). apply Hlen. exact Hsub'.
  - unfold ret in Hrun. injection Hrun as <- <-.
    exists []. repeat split; try constructor. simpl. lia.
Qed.

Lemma results_follow_valid_targets_witness :
  mixed_call = (Ret mixed_results, snd mixed_call) /\
  exists served,
    subsequence served
      (filter (valid_in (available_currencies (snd mixed_call)))
         ["XXX"; "EUR"; "USD"; "GBP"]) /\
    subsequence served ["XXX"; "EUR"; "USD"; "GBP"] /\
    List.Forall2 (is_record_of "USD" 100) served mixed_results /\
    List.length mixed_results <= List.length ["XXX"; "EUR"; "USD"; "GBP"].
Proof.
  assert (H : mixed_call = (Ret mixed_results, snd mixed_call))
    by (vm_compute; reflexivity).
  split; [exact H |].
  exact (results_follow_valid_targets half_env "USD"
           ["XXX"; "EUR"; "USD"; "GBP"] 100 fresh_converter (snd mixed_call)
           mixed_results H).
Defined.

(** ** A conversion, step by step *)

(** The body of the loop on a target other than the base, once the rate is
    there: the outcome of the multiplication, then of the append, decide;
    the save cannot fail the call. *)
Lemma convert_one_foreign
    (E : environment) (base target : string) (amount : float)
    (results : list pyval) (s s1 : state) (rate : pyval) :
  base <> target ->
  get_exchange_rate E base target s = (Ret rate, s1) ->
  rate <> PNone ->
  convert_one E base amount target results s
  = match float_mul amount rate with
    | Raise e => (Raise e, s1)
    | Ret converted =>
        let record :=
          make_record base target (PFloat amount) converted rate
            (now_isoformat E (clock_reads s)) in
        match add_to_history (history s) record with
        | Raise e => (Raise e, ticked s1)
        | Ret h' =>
            (Ret (results ++ [record]),
             set_storage (snd (write_text (storage s) (json_dumps E h')))
               (set_history h' (ticked s1)))
        end
    end.
Proof.
  intros Hneq Hrate Hnone.
  pose proof (get_exchange_rate_state _ _ _ _ _ _ Hrate) as Hs1.
  unfold convert_one. apply String.eqb_neq in Hneq. rewrite Hneq.
  unfold bind at 1. rewrite Hrate.
  assert (Hrest :
    (converted_amount <- lift (float_mul amount rate) ;;
     timestamp <- datetime_now E ;;
     h <- gets history ;;
     h' <- lift (add_to_history h
                   (make_record base target (PFloat amount)
                      converted_amount rate timestamp)) ;;
     modify (set_history h') ;;;
     _save_history E ;;;
     ret (results ++
          [make_record base target (PFloat amount) converted_amount rate
             timestamp])) s1
    = match float_mul amount rate with
      | Raise e => (Raise e, s1)
      | Ret converted =>
          match add_to_history (history s)
                  (make_record base target (PFloat amount) converted rate
                     (now_isoformat E (clock_reads s))) with
          | Raise e => (Raise e, ticked s1)
          | Ret h' =>
              (Ret (results ++
                    [make_record base target (PFloat amount) converted rate
                       (now_isoformat E (clock_reads s))]),
               set_storage (snd (write_text (storage s) (json_dumps E h')))
                 (set_history h' (ticked s1)))
          end
      end).
  { unfold_m. subst s1. simpl.
    destruct (float_mul amount rate) as [converted |]; [| reflexivity].
    destruct (add_to_history (history s)
                (make_record base target (PFloat amount) converted rate
                   (now_isoformat E (clock_reads s)))) as [h' |];
      [| reflexivity].
    rewrite save_history_state. reflexivity. }
  destruct rate; try exact Hrest. congruence.
Qed.

(** An exception in the body of the loop leaves the loop. *)
Lemma for_each_target_raise
    (E : environment) (base target : string) (amount : float)
    (rest : list string) (results : list pyval) (s s' : state) (e : exn) :
  convert_one E base amount target results s = (Raise e, s') ->
  for_each_target E base amount (target :: rest) results s = (Raise e, s').
Proof.
  intros H. simpl. unfold bind. rewrite H. reflexivity.
Qed.

(** X7: a conversion whose save fails is returned all the same, and the
    history in memory has it: when the file cannot be opened for writing it
    keeps its former content, and when the device fails during the write it
    keeps only the part of the new text that was written.  What the file
    holds and the history in memory then differ. *)
Theorem failed_save_is_not_reported
    (E : environment) (base target : string) (amount : float)
    (results : list pyval) (s s1 : state) (rate converted : pyval)
    (l : list pyval) :
  base <> target ->
  get_exchange_rate E base target s = (Ret rate, s1) ->
  rate <> PNone ->
  float_mul amount rate = Ret converted ->
  conversions_of (history s) = Some l ->
  on_write (storage s) <> WriteOk ->
  exists record s2,
    convert_one E base amount target results s
      = (Ret (results ++ [record]), s2) /\
    conversions_of (history s2) = Some (last_n 10 (l ++ [record])) /\
    (on_write (storage s) = OpenRefused -> storage s2 = storage s) /\
    (forall n, on_write (storage s) = WriteFault n ->
       exists readable,
         history_file (storage s2)
         = Present readable (substring 0 n (json_dumps E (history s2)))).
Proof.
  intros Hneq Hrate Hnone Hmul Hconv Hbad.
  rewrite (convert_one_foreign E base target amount results s s1 rate
             Hneq Hrate Hnone), Hmul.
  cbv zeta.
  destruct (add_to_history_conversions (history s)
              (make_record base target (PFloat amount) converted rate
                 (now_isoformat E (clock_reads s))) l Hconv)
    as (h' & Hadd & Hconv').
  rewrite Hadd. eexists. eexists. split; [reflexivity |].
  split; [exact Hconv' |]. simpl. unfold write_text. split.
  - intros Hw. rewrite Hw. simpl. destruct (storage s); reflexivity.
  - intros n Hw. rewrite Hw. simpl. eauto.
Qed.

Lemma failed_save_is_not_reported_witness :
  "USD" <> "EUR" /\
  get_exchange_rate half_env "USD" "EUR" converter_on_refusing_disk
    = (Ret (PFloat 0.5), logged (Latest "USD" "EUR") converter_on_refusing_disk) /\
  PFloat 0.5 <> PNone /\
  float_mul 100 (PFloat 0.5) = Ret (PFloat 50) /\
  conversions_of (history converter_on_refusing_disk) = Some [] /\
  on_write (storage converter_on_refusing_disk) <> WriteOk /\
  exists record s2,
    convert_one half_env "USD" 100 "EUR" [] converter_on_refusing_disk
      = (Ret ([] ++ [record]), s2) /\
    conversions_of (history s2) = Some (last_n 10 ([] ++ [record])) /\
    (on_write (storage converter_on_refusing_disk) = OpenRefused ->
     storage s2 = storage converter_on_refusing_disk) /\
    (forall n, on_write (storage converter_on_refusing_disk) = WriteFault n ->
       exists readable,
         history_file (storage s2)
         = Present readable
             (substring 0 n (json_dumps half_env (history s2)))).
Proof.
  assert (H1 : "USD" <> "EUR") by discriminate.
  assert (H2 : get_exchange_rate half_env "USD" "EUR" converter_on_refusing_disk
               = (Ret (PFloat 0.5),
                  logged (Latest "USD" "EUR") converter_on_refusing_disk))
    by reflexivity.
  assert (H3 : PFloat 0.5 <> PNone) by discriminate.
  assert (H4 : float_mul 100 (PFloat 0.5) = Ret (PFloat 50)) by reflexivity.
  assert (H5 : conversions_of (history converter_on_refusing_disk) = Some [])
    by reflexivity.
  assert (H6 : on_write (storage converter_on_refusing_disk) <> WriteOk)
    by discriminate.
  split; [exact H1 |]. split; [exact H2 |]. split; [exact H3 |].
  split; [exact H4 |]. split; [exact H5 |]. split; [exact H6 |].
  exact (failed_save_is_not_reported half_env "USD" "EUR" 100 []
           converter_on_refusing_disk _ (PFloat 0.5) (PFloat 50) []
           H1 H2 H3 H4 H5 H6).
Defined.

(** X8: when the history in memory has not the shape the converter writes
    (the file held other JSON, which was loaded as it is), a conversion to
    another currency raises once the rate is there and the amount
    multiplied: [TypeError] when the history is not an object, [KeyError]
    when it has no ["conversions"], [AttributeError] when that is not a
    list.  The exception leaves the loop; the results gathered so far are
    lost, the history and the disk are as before. *)
Theorem misshapen_history_fails_conversion
    (E : environment) (base target : string) (amount : float)
    (rest : list string) (results : list pyval) (s s1 : state)
    (rate converted : pyval) :
  base <> target ->
  get_exchange_rate E base target s = (Ret rate, s1) ->
  rate <> PNone ->
  float_mul amount rate = Ret converted ->
  conversions_of (history s) = None ->
  exists e,
    for_each_target E base amount (target :: rest) results s
      = (Raise e, ticked s1) /\
    history (ticked s1) = history s /\
    storage (ticked s1) = storage s /\
    match history s with
    | PDict d =>
        match dict_lookup "conversions" d with
        | None => e = KeyError
        | Some _ => e = AttributeError
        end
    | _ => e = TypeError
    end.
Proof.
  intros Hneq Hrate Hnone Hmul Hconv.
  pose proof (get_exchange_rate_state _ _ _ _ _ _ Hrate) as Hs1.
  pose proof (convert_one_foreign E base target amount results s s1 rate
                Hneq Hrate Hnone) as Hone.
  rewrite Hmul in Hone. cbv zeta in Hone.
  assert (Hadd : forall r, exists e,
             add_to_history (history s) r = Raise e /\
             match history s with
             | PDict d =>
                 match dict_lookup "conversions" d with
                 | None => e = KeyError
                 | Some _ => e = AttributeError
                 end
             | _ => e = TypeError
             end).
  { intros r. unfold add_to_history. unfold conversions_of in Hconv.
    destruct (history s) as [| | | | | | d]; simpl; eauto.
    destruct (dict_lookup "conversions" d) as [v |]; simpl; eauto.
    destruct v; try discriminate; simpl; eauto. }
  destruct (Hadd (make_record base target (PFloat amount) converted rate
                    (now_isoformat E (clock_reads s)))) as (e & He & Hcase).
  rewrite He in Hone. exists e.
  split; [apply for_each_target_raise; exact Hone |].
  subst s1. repeat split. exact Hcase.
Qed.

Lemma misshapen_history_fails_conversion_witness :
  "USD" <> "EUR" /\
  get_exchange_rate half_env "USD" "EUR" converter_with_list_history
    = (Ret (PFloat 0.5), logged (Latest "USD" "EUR") converter_with_list_history) /\
  PFloat 0.5 <> PNone /\
  float_mul 100 (PFloat 0.5) = Ret (PFloat 50) /\
  conversions_of (history converter_with_list_history) = None /\
  exists e,
    for_each_target half_env "USD" 100 ("EUR" :: ["GBP"]) []
      converter_with_list_history
      = (Raise e, ticked (logged (Latest "USD" "EUR") converter_with_list_history)) /\
    history (ticked (logged (Latest "USD" "EUR") converter_with_list_history))
      = history converter_with_list_history /\
    storage (ticked (logged (Latest "USD" "EUR") converter_with_list_history))
      = storage converter_with_list_history /\
    match history converter_with_list_history with
    | PDict d =>
        match dict_lookup "conversions" d with
        | None => e = KeyError
        | Some _ => e = AttributeError
        end
    | _ => e = TypeError
    end.
Proof.
  assert (H1 : "USD" <> "EUR") by discriminate.
  assert (H2 : get_exchange_rate half_env "USD" "EUR" converter_with_list_history
               = (Ret (PFloat 0.5),
                  logged (Latest "USD" "EUR") converter_with_list_history))
    by reflexivity.
  assert (H3 : PFloat 0.5 <> PNone) by discriminate.
  assert (H4 : float_mul 100 (PFloat 0.5) = Ret (PFloat 50)) by reflexivity.
  assert (H5 : conversions_of (history converter_with_list_history) = None)
    by reflexivity.
  split; [exact H1 |]. split; [exact H2 |]. split; [exact H3 |].
  split; [exact H4 |]. split; [exact H5 |].
  exact (misshapen_history_fails_conversion half_env "USD" "EUR" 100 ["GBP"] []
           converter_with_list_history _ (PFloat 0.5) (PFloat 50)
           H1 H2 H3 H4 H5).
Defined.

(** ** Responses and rates that are not what they should be *)

(** X9: a response whose body is JSON but not an object is not taken for a
    failed fetch: [get_exchange_rate] raises [AttributeError] instead of
    returning [None], and the exception leaves the loop over the targets;
    no record is made for the targets that follow. *)
Theorem body_that_is_no_object_raises
    (E : environment) (base target : string) (amount : float)
    (rest : list string) (results : list pyval) (s : state) (data : pyval) :
  base <> target ->
  remote E (List.length (requests_made s)) (url_of (Latest base target))
    = Json data ->
  (forall d, data <> PDict d) ->
  get_exchange_rate E base target s
    = (Raise AttributeError, logged (Latest base target) s) /\
  for_each_target E base amount (target :: rest) results s
    = (Raise AttributeError, logged (Latest base target) s).
Proof.
  intros Hneq Hresp Hshape.
  assert (Hrate : get_exchange_rate E base target s
                  = (Raise AttributeError, logged (Latest base target) s)).
  { unfold get_exchange_rate. unfold_m. rewrite Hresp.
    destruct data; try reflexivity. exfalso. eapply Hshape. reflexivity. }
  split; [exact Hrate |].
  apply for_each_target_raise. unfold convert_one.
  apply String.eqb_neq in Hneq. rewrite Hneq. unfold bind. rewrite Hrate.
  reflexivity.
Qed.

Lemma body_that_is_no_object_raises_witness :
  "USD" <> "EUR" /\
  remote list_env (List.length (requests_made fresh_converter))
    (url_of (Latest "USD" "EUR")) = Json (PList []) /\
  (forall d, PList [] <> PDict d) /\
  get_exchange_rate list_env "USD" "EUR" fresh_converter
    = (Raise AttributeError, logged (Latest "USD" "EUR") fresh_converter) /\
  for_each_target list_env "USD" 100 ("EUR" :: ["GBP"]) [] fresh_converter
    = (Raise AttributeError, logged (Latest "USD" "EUR") fresh_converter).
Proof.
  assert (H1 : "USD" <> "EUR") by discriminate.
  assert (H2 : remote list_env (List.length (requests_made fresh_converter))
                 (url_of (Latest "USD" "EUR")) = Json (PList []))
    by reflexivity.
  assert (H3 : forall d, PList [] <> PDict d) by discriminate.
  split; [exact H1 |]. split; [exact H2 |]. split; [exact H3 |].
  exact (body_that_is_no_object_raises list_env "USD" "EUR" 100 ["GBP"] []
           fresh_converter (PList []) H1 H2 H3).
Defined.

(** X10: the rate is multiplied as it was received.  A rate that is a
    string, a list or an object makes the call raise [TypeError], an
    integer beyond the range of a float [OverflowError]; this happens after
    the request and before anything is recorded: the history, the disk and
    the clock are as they were. *)
Theorem rate_that_cannot_be_multiplied_raises
    (E : environment) (base target : string) (amount : float)
    (rest : list string) (results : list pyval) (s s1 : state)
    (rate : pyval) (e : exn) :
  base <> target ->
  get_exchange_rate E base target s = (Ret rate, s1) ->
  rate <> PNone ->
  float_mul amount rate = Raise e ->
  for_each_target E base amount (target :: rest) results s = (Raise e, s1) /\
  history s1 = history s /\
  storage s1 = storage s /\
  clock_reads s1 = clock_reads s /\
  match rate with
  | PInt _ => e = OverflowError
  | _ => e = TypeError
  end.
Proof.
  intros Hneq Hrate Hnone Hmul.
  pose proof (get_exchange_rate_state _ _ _ _ _ _ Hrate) as Hs1.
  pose proof (convert_one_foreign E base target amount results s s1 rate
                Hneq Hrate Hnone) as Hone.
  rewrite Hmul in Hone.
  split; [apply for_each_target_raise; exact Hone |].
  subst s1. repeat split.
  destruct rate; simpl in Hmul; try congruence.
  destruct (float_of_int z) eqn:Hz; simpl in Hmul; [discriminate |].
  unfold float_of_int in Hz.
  destruct (binary_normalize prec emax z 0 false); congruence.
Qed.

Lemma rate_that_cannot_be_multiplied_raises_witness :
  "USD" <> "EUR" /\
  get_exchange_rate text_rate_env "USD" "EUR" fresh_converter
    = (Ret (PStr "0.5"), logged (Latest "USD" "EUR") fresh_converter) /\
  PStr "0.5" <> PNone /\
  float_mul 100 (PStr "0.5") = Raise TypeError /\
  for_each_target text_rate_env "USD" 100 ("EUR" :: ["GBP"]) [] fresh_converter
    = (Raise TypeError, logged (Latest "USD" "EUR") fresh_converter) /\
  history (logged (Latest "USD" "EUR") fresh_converter) = history fresh_converter /\
  storage (logged (Latest "USD" "EUR") fresh_converter) = storage fresh_converter /\
  clock_reads (logged (Latest "USD" "EUR") fresh_converter)
    = clock_reads fresh_converter /\
  match PStr "0.5" with
  | PInt _ => TypeError = OverflowError
  | _ => TypeError = TypeError
  end.
Proof.
  assert (H1 : "USD" <> "EUR") by discriminate.
  assert (H2 : get_exchange_rate text_rate_env "USD" "EUR" fresh_converter
               = (Ret (PStr "0.5"),
                  logged (Latest "USD" "EUR") fresh_converter))
    by reflexivity.
  assert (H3 : PStr "0.5" <> PNone) by discriminate.
  assert (H4 : float_mul 100 (PStr "0.5") = Raise TypeError) by reflexivity.
  split; [exact H1 |]. split; [exact H2 |]. split; [exact H3 |].
  split; [exact H4 |].
  exact (rate_that_cannot_be_multiplied_raises text_rate_env "USD" "EUR" 100
           ["GBP"] [] fresh_converter _ (PStr "0.5") TypeError H1 H2 H3 H4).
Defined.

(** ** The history value and the file *)

Lemma dict_set_keys (k : string) (v : pyval) (d : list (string * pyval)) :
  dict_has k d = true -> map fst (dict_set k v d) = map fst d.
Proof.
  unfold dict_has. induction d as [| [k' v'] d IH]; simpl; [discriminate |].
  destruct (String.eqb k k') eqn:Hk; simpl; [reflexivity |].
  intros H. rewrite IH by exact H. reflexivity.
Qed.

Lemma dict_lookup_set_other (k k' : string) (v : pyval)
    (d : list (string * pyval)) :
  k' <> k -> dict_lookup k' (dict_set k v d) = dict_lookup k' d.
Proof.
  intros Hneq. induction d as [| [k0 v0] d IH]; simpl.
  - apply String.eqb_neq in Hneq. rewrite Hneq. reflexivity.
  - destruct (String.eqb k k0) eqn:Hk; simpl.
    + apply String.eqb_eq in Hk. subst k0.
      apply String.eqb_neq in Hneq. rewrite Hneq. reflexivity.
    + destruct (String.eqb k' k0); [reflexivity | exact IH].
Qed.

(** X11: an append changes nothing of the history but its conversions:
    the other entries of the object (a history file may have some) keep
    their values and all the keys keep their order, so that they are
    written back to the file as they were read. *)
Theorem append_keeps_other_entries (h h' r : pyval) :
  add_to_history h r = Ret h' ->
  exists d d',
    h = PDict d /\ h' = PDict d' /\
    map fst d' = map fst d /\
    forall k, k <> "conversions" -> dict_lookup k d' = dict_lookup k d.
Proof.
  unfold add_to_history.
  destruct h as [| | | | | | d]; simpl; try discriminate.
  destruct (dict_lookup "conversions" d) as [v |] eqn:Hd; simpl;
    [| discriminate].
  destruct v as [| | | | | l |]; try discriminate.
  intros H. injection H as <-.
  exists d. eexists. split; [reflexivity |]. split; [reflexivity |]. split.
  - apply dict_set_keys. unfold dict_has. rewrite Hd. reflexivity.
  - intros k Hk. apply dict_lookup_set_other. exact Hk.
Qed.

Lemma append_keeps_other_entries_witness :
  add_to_history (PDict versioned_history) (demo_record 10)
    = Ret (PDict [("version", PInt 1);
                  ("conversions", PList (demo_records 1 10));
                  ("owner", PStr "me")]) /\
  exists d d',
    PDict versioned_history = PDict d /\
    PDict [("version", PInt 1); ("conversions", PList (demo_records 1 10));
           ("owner", PStr "me")] = PDict d' /\
    map fst d' = map fst d /\
    forall k, k <> "conversions" -> dict_lookup k d' = dict_lookup k d.
Proof.
  assert (H : add_to_history (PDict versioned_history) (demo_record 10)
              = Ret (PDict [("version", PInt 1);
                            ("conversions", PList (demo_records 1 10));
                            ("owner", PStr "me")])) by reflexivity.
  split; [exact H |].
  exact (append_keeps_other_entries _ _ _ H).
Defined.

(** X12: [_load_history] never raises an [OSError] or a
    [JSONDecodeError], and what it returns is either the empty history or
    the value [json.loads] made of the text of the file, as it is: it is
    not checked to be an object with a list of conversions. *)
Theorem load_history_absorbs_io_and_json_errors (E : environment) (d : disk) :
  _load_history E d <> Raise OSError /\
  _load_history E d <> Raise JSONDecodeError /\
  forall v,
    _load_history E d = Ret v ->
    v = empty_history \/
    exists bytes text,
      history_file d = Present true bytes /\
      read_text bytes = Ret text /\
      json_loads E text = Ret v.
Proof.
  unfold _load_history, path_exists, open_read, json_load.
  destruct (history_file d) as [| readable bytes]; simpl.
  - repeat split; try discriminate. intros v H. injection H as <-. auto.
  - destruct readable; simpl.
    + destruct (read_text bytes) as [text | e] eqn:Hread; simpl.
      * destruct (json_loads E text) as [v0 | e] eqn:Hloads.
        -- repeat split; try discriminate.
           intros v H. injection H as <-. right. eauto.
        -- destruct e; repeat split; try discriminate;
             intros v H; injection H as <-; auto.
      * destruct e; repeat split; try discriminate;
          intros v H; injection H as <-; auto.
    + repeat split; try discriminate. intros v H. injection H as <-. auto.
Qed.

(** X13: a call on a history of the converter's shape leaves it with that
    shape: with the records it found when no conversion to another currency
    was returned, and otherwise with the last ten of the records found
    followed by those conversions in the order they were returned.  In
    particular a history of at most ten records has at most ten after any
    call. *)
Theorem call_keeps_history_within_ten
    (E : environment) (base : string) (targets : list string) (amount : float)
    (results l : list pyval) (s s' : state) :
  conversions_of (history s) = Some l ->
  convert_currency E base targets amount s = (Ret results, s') ->
  exists l',
    conversions_of (history s') = Some l' /\
    (foreign_records base results = [] -> l' = l) /\
    (foreign_records base results <> [] ->
     l' = last_n 10 (l ++ foreign_records base results) /\
     List.length l' <= 10) /\
    (List.length l <= 10 -> List.length l' <= 10).
Proof.
  intros Hl Hrun.
  pose proof (convert_currency_history E base targets amount results l s s'
                Hl Hrun) as Hh.
  destruct (foreign_records base results) as [| r rs] eqn:Hf.
  - exists l. split; [exact Hh |]. split; [reflexivity |].
    split; [congruence | auto].
  - exists (last_n 10 (l ++ r :: rs)). split; [exact Hh |].
    assert (Hlen : List.length (last_n 10 (l ++ r :: rs)) <= 10)
      by (rewrite last_n_length; lia).
    split; [discriminate |]. split; auto.
Qed.

Lemma call_keeps_history_within_ten_witness :
  conversions_of (history fresh_converter) = Some [] /\
  mixed_call = (Ret mixed_results, snd mixed_call) /\
  exists l',
    conversions_of (history (snd mixed_call)) = Some l' /\
    (foreign_records "USD" mixed_results = [] -> l' = []) /\
    (foreign_records "USD" mixed_results <> [] ->
     l' = last_n 10 ([] ++ foreign_records "USD" mixed_results) /\
     List.length l' <= 10) /\
    (List.length (@nil pyval) <= 10 -> List.length l' <= 10).
Proof.
  assert (H1 : conversions_of (history fresh_converter) = Some [])
    by reflexivity.
  assert (H2 : mixed_call = (Ret mixed_results, snd mixed_call))
    by (vm_compute; reflexivity).
  split; [exact H1 |]. split; [exact H2 |].
  exact (call_keeps_history_within_ten half_env "USD"
           ["XXX"; "EUR"; "USD"; "GBP"] 100 mixed_results [] fresh_converter
           (snd mixed_call) H1 H2).
Defined.

(** The body of the loop on a disk that takes writes: either it leaves the
    history and the disk alone and adds no conversion to another currency,
    or it adds one and leaves the file holding the history. *)
Lemma convert_one_sync (E : environment) (base target : string) (amount : float)
    (results results' : list pyval) (s s' : state) :
  on_write (storage s) = WriteOk ->
  convert_one E base amount target results s = (Ret results', s') ->
  on_write (storage s') = WriteOk /\
  exists new,
    results' = results ++ new /\
    ((foreign_records base new = [] /\
      history s' = history s /\ storage s' = storage s) \/
     (foreign_records base new <> [] /\ in_sync E s')).
Proof.
  intros Hok.
  destruct (String.eqb base target) eqn:Heq.
  - apply String.eqb_eq in Heq. subst target. rewrite convert_one_same.
    intros H. injection H as <- <-. split; [exact Hok |].
    eexists. split; [reflexivity |]. left.
    unfold foreign_records, is_same_currency_record. simpl.
    rewrite String.eqb_refl. auto.
  - apply String.eqb_neq in Heq.
    destruct (get_exchange_rate E base target s) as [[rate | e] s1] eqn:Hrate.
    + pose proof (get_exchange_rate_state _ _ _ _ _ _ Hrate) as Hs1.
      assert (Hnone_case :
        rate = PNone ->
        convert_one E base amount target results s = (Ret results', s') ->
        on_write (storage s') = WriteOk /\
        exists new,
          results' = results ++ new /\
          ((foreign_records base new = [] /\
            history s' = history s /\ storage s' = storage s) \/
           (foreign_records base new <> [] /\ in_sync E s'))).
      { intros -> H. unfold convert_one in H.
        apply String.eqb_neq in Heq. rewrite Heq in H.
        unfold bind in H. rewrite Hrate in H. unfold ret in H.
        injection H as <- <-. subst s1. split; [exact Hok |].
        exists []. rewrite List.app_nil_r. auto. }
      assert (Hsome_case :
        rate <> PNone ->
        convert_one E base amount target results s = (Ret results', s') ->
        on_write (storage s') = WriteOk /\
        exists new,
          results' = results ++ new /\
          ((foreign_records base new = [] /\
            history s' = history s /\ storage s' = storage s) \/
           (foreign_records base new <> [] /\ in_sync E s'))).
      { intros Hnone.
        rewrite (convert_one_foreign E base target amount results s s1 rate
                   Heq Hrate Hnone).
        destruct (float_mul amount rate) as [converted |]; [| discriminate].
        cbv zeta.
        destruct (add_to_history (history s) _) as [h' |]; [| discriminate].
        intros H. injection H as <- <-.
        unfold in_sync, write_text. simpl. rewrite Hok. simpl.
        split; [reflexivity |].
        eexists. split; [reflexivity |]. right. split; [| eauto].
        unfold foreign_records, is_same_currency_record. simpl.
        apply String.eqb_neq in Heq. rewrite Heq. discriminate. }
      destruct rate; first [apply Hnone_case; reflexivity
                           | apply Hsome_case; discriminate].
    + unfold convert_one. apply String.eqb_neq in Heq. rewrite Heq.
      unfold bind. rewrite Hrate. discriminate.
Qed.

Lemma for_each_target_sync (E : environment) (base : string) (amount : float)
    (targets : list string) :
  forall (results results' : list pyval) (s s' : state),
    on_write (storage s) = WriteOk ->
    for_each_target E base amount targets results s = (Ret results', s') ->
    on_write (storage s') = WriteOk /\
    exists new,
      results' = results ++ new /\
      ((foreign_records base new = [] /\
        history s' = history s /\ storage s' = storage s) \/
       (foreign_records base new <> [] /\ in_sync E s')).
Proof.
  induction targets as [| target rest IH]; intros results results' s s' Hok.
  - simpl. unfold ret. intros H. injection H as <- <-.
    split; [exact Hok |]. exists []. rewrite List.app_nil_r. auto.
  - simpl. unfold bind at 1.
    destruct (convert_one E base amount target results s)
      as [[results1 | e] s1] eqn:Hone; [| discriminate].
    intros Hrest.
    destruct (convert_one_sync E base target amount _ _ _ _ Hok Hone)
      as (Hok1 & new1 & -> & Hcase1).
    destruct (IH _ _ _ _ Hok1 Hrest) as (Hok' & new & -> & Hcase).
    split; [exact Hok' |].
    exists (new1 ++ new). split; [rewrite List.app_assoc; reflexivity |].
    unfold foreign_records in *. rewrite List.filter_app.
    destruct Hcase1 as [(Hf1 & Hh1 & Hs1) | (Hf1 & Hsync1)];
      destruct Hcase as [(Hf & Hh & Hs) | (Hf & Hsync)].
    + left. rewrite Hf1, Hf. repeat split; congruence.
    + right. split; [| exact Hsync]. rewrite Hf1. exact Hf.
    + right. split.
      * intros Happ. apply List.app_eq_nil in Happ as [Happ _]. auto.
      * unfold in_sync in *. rewrite Hh, Hs. exact Hsync1.
    + right. split; [| exact Hsync].
      intros Happ. apply List.app_eq_nil in Happ as [Happ _]. auto.
Qed.

(** X14: on a disk that takes writes, a call that returns at least one
    conversion to another currency leaves the history file holding exactly
    the history in memory; a call that returns none leaves both the file
    and the history in memory as they were.  So a file that holds the
    history keeps holding it from call to call. *)
Theorem call_keeps_file_in_step
    (E : environment) (base : string) (targets : list string) (amount : float)
    (results : list pyval) (s s' : state) :
  on_write (storage s) = WriteOk ->
  convert_currency E base targets amount s = (Ret results, s') ->
  (foreign_records base results <> [] -> in_sync E s') /\
  (foreign_records base results = [] ->
   history s' = history s /\ storage s' = storage s) /\
  (in_sync E s -> in_sync E s').
Proof.
  intros Hok Hrun.
  assert (Hmain :
    (foreign_records base results = [] /\
     history s' = history s /\ storage s' = storage s) \/
    (foreign_records base results <> [] /\ in_sync E s')).
  { unfold convert_currency in Hrun. unfold bind at 1 in Hrun.
    destruct (validate_currency E base s) as [[valid | e] s1] eqn:Hv;
      [| discriminate].
    pose proof (validate_currency_frame E base s s1 _ Hv) as (Hh1 & Hs1 & _).
    destruct valid; cbn [negb] in Hrun.
    - destruct (validate_currency_true_cached E base s s1 Hv) as [Hc Hin].
      rewrite (loop_after_validation E base targets amount s1 Hc Hin) in Hrun.
      assert (Hok1 : on_write (storage s1) = WriteOk) by congruence.
      destruct (for_each_target_sync E base amount _ _ _ _ _ Hok1 Hrun)
        as (_ & new & Hres & Hcase).
      simpl in Hres. subst new.
      destruct Hcase as [(Hf & Hh & Hs) | Hcase]; [left | right; exact Hcase].
      repeat split; congruence.
    - unfold ret in Hrun. injection Hrun as <- <-. left. auto. }
  destruct Hmain as [(Hf & Hh & Hs) | (Hf & Hsync)].
  - split; [congruence |]. split; [auto |].
    unfold in_sync. rewrite Hh, Hs. auto.
  - split; [auto |]. split; [congruence | auto].
Qed.

Lemma call_keeps_file_in_step_witness :
  on_write (storage fresh_converter) = WriteOk /\
  mixed_call = (Ret mixed_results, snd mixed_call) /\
  (foreign_records "USD" mixed_results <> [] -> in_sync half_env (snd mixed_call)) /\
  (foreign_records "USD" mixed_results = [] ->
   history (snd mixed_call) = history fresh_converter /\
   storage (snd mixed_call) = storage fresh_converter) /\
  (in_sync half_env fresh_converter -> in_sync half_env (snd mixed_call)).
Proof.
  assert (H1 : on_write (storage fresh_converter) = WriteOk) by reflexivity.
  assert (H2 : mixed_call = (Ret mixed_results, snd mixed_call))
    by (vm_compute; reflexivity).
  split; [exact H1 |]. split; [exact H2 |].
  exact (call_keeps_file_in_step half_env "USD" ["XXX"; "EUR"; "USD"; "GBP"]
           100 mixed_results fresh_converter (snd mixed_call) H1 H2).
Defined.

(** ** The window and the converter *)

Lemma insert_sorted_perm (x : string) (l : list string) :
  Permutation (insert_sorted x l) (x :: l).
Proof.
  induction l as [| y l IH]; simpl.
  - apply Permutation_refl.
  - destruct (String.leb x y).
    + apply Permutation_refl.
    + eapply Permutation_trans; [apply perm_skip; exact IH | apply perm_swap].
Qed.

Lemma py_sorted_perm (l : list string) : Permutation (py_sorted l) l.
Proof.
  induction l as [| x l IH]; simpl.
  - apply Permutation_refl.
  - eapply Permutation_trans; [apply insert_sorted_perm |].
    apply perm_skip. exact IH.
Qed.

Lemma insert_sorted_sorted (x : string) (l : list string) :
  Sorted (fun a b => String.leb a b = true) l ->
  Sorted (fun a b => String.leb a b = true) (insert_sorted x l).
Proof.
  induction l as [| y l IH]; simpl; intros Hs.
  - repeat constructor.
  - destruct (String.leb x y) eqn:Hxy.
    + constructor; [exact Hs | constructor; exact Hxy].
    + assert (Hyx : String.leb y x = true).
      { destruct (String.leb_total x y) as [H | H]; congruence. }
      inversion Hs as [| ? ? Hs' Hhd]; subst.
      constructor; [apply IH; exact Hs' |].
      destruct l as [| z l]; simpl.
      * constructor. exact Hyx.
      * destruct (String.leb x z); constructor; [exact Hyx |].
        inversion Hhd. assumption.
Qed.

Lemma py_sorted_sorted (l : list string) :
  Sorted (fun a b => String.leb a b = true) (py_sorted l).
Proof.
  induction l as [| x l IH]; simpl.
  - constructor.
  - apply insert_sorted_sorted. exact IH.
Qed.

(** When [fetch_symbols] returns a list. *)
Lemma fetch_symbols_inv (E : environment) (n : nat) (l : list string) :
  fetch_symbols E n = Some l ->
  exists body d,
    remote E n "https://api.exchangerate.host/symbols" = Json (PDict body) /\
    (exists flag, dict_lookup "success" body = Some flag /\
                  py_truthy flag = true) /\
    dict_lookup "symbols" body = Some (PDict d) /\
    l = py_sorted (map fst d).
Proof.
  unfold fetch_symbols.
  destruct (remote E n "https://api.exchangerate.host/symbols")
    as [| data]; [discriminate |].
  destruct data as [| | | | | | body]; try discriminate.
  unfold py_get, py_in, py_getitem, dict_has.
  destruct (dict_lookup "success" body) as [flag |] eqn:Hflag;
    [| discriminate].
  destruct (py_truthy flag) eqn:Htruthy; [| discriminate].
  destruct (dict_lookup "symbols" body) as [v |] eqn:Hsym; [| discriminate].
  destruct v as [| | | | | | d]; try discriminate.
  intros H. injection H as <-.
  exists body, d. repeat split; eauto.
Qed.

(** X15: when [fetch_symbols] returns a list, the response was an object
    announcing a success whose ["symbols"] is an object, and the list holds
    the keys of that object, each as often as it is a key, in ascending
    order: a code is in the list exactly when it is a key. *)
Theorem fetch_symbols_gives_sorted_keys
    (E : environment) (n : nat) (l : list string) :
  fetch_symbols E n = Some l ->
  exists body d,
    remote E n "https://api.exchangerate.host/symbols" = Json (PDict body) /\
    dict_lookup "symbols" body = Some (PDict d) /\
    Sorted (fun a b => String.leb a b = true) l /\
    Permutation l (map fst d) /\
    forall code, In code l <-> dict_has code d = true.
Proof.
  intros H.
  destruct (fetch_symbols_inv E n l H) as (body & d & Hresp & _ & Hsym & ->).
  exists body, d. split; [exact Hresp |]. split; [exact Hsym |].
  split; [apply py_sorted_sorted |].
  split; [apply py_sorted_perm |].
  intros code. rewrite dict_has_In. split; intros Hin.
  - eapply Permutation_in; [apply py_sorted_perm | exact Hin].
  - eapply Permutation_in; [apply Permutation_sym, py_sorted_perm | exact Hin].
Qed.

Lemma fetch_symbols_gives_sorted_keys_witness :
  fetch_symbols (demo_env "USD" []) 0 = Some ["EUR"; "GBP"; "USD"] /\
  exists body d,
    remote (demo_env "USD" []) 0 "https://api.exchangerate.host/symbols"
      = Json (PDict body) /\
    dict_lookup "symbols" body = Some (PDict d) /\
    Sorted (fun a b => String.leb a b = true) ["EUR"; "GBP"; "USD"] /\
    Permutation ["EUR"; "GBP"; "USD"] (map fst d) /\
    forall code, In code ["EUR"; "GBP"; "USD"] <-> dict_has code d = true.
Proof.
  assert (H : fetch_symbols (demo_env "USD" []) 0 = Some ["EUR"; "GBP"; "USD"])
    by reflexivity.
  split; [exact H |].
  exact (fetch_symbols_gives_sorted_keys (demo_env "USD" []) 0 _ H).
Defined.

(** X16: the window and the converter agree on the codes.  When the
    window's request for the symbols gives a list, a converter without a
    catalog that gets the same response finds a code valid exactly when the
    window lists it. *)
Theorem window_lists_the_valid_codes
    (E : environment) (s : state) (l : list string) (code : string) :
  py_truthy (available_currencies s) = false ->
  fetch_symbols E (List.length (requests_made s)) = Some l ->
  exists b s',
    validate_currency E code s = (Ret b, s') /\
    (b = true <-> In code l).
Proof.
  intros Hc Hfetch.
  destruct (fetch_symbols_inv E _ l Hfetch)
    as (body & d & Hresp & (flag & Hflag & Htruthy) & Hsym & ->).
  assert (Hin : forall c, In c (py_sorted (map fst d)) <-> dict_has c d = true).
  { intros c. rewrite dict_has_In. split; intros H.
    - eapply Permutation_in; [apply py_sorted_perm | exact H].
    - eapply Permutation_in; [apply Permutation_sym, py_sorted_perm | exact H]. }
  unfold validate_currency, get_available_currencies. unfold_m.
  rewrite Hc.
  change (url_of Symbols) with "https://api.exchangerate.host/symbols".
  rewrite Hresp. unfold py_get, py_in, py_getitem, dict_has.
  rewrite Hflag, Htruthy, Hsym. cbn [py_truthy set_available_currencies
                                       available_currencies].
  destruct d as [| kv d].
  - eexists. eexists. split; [reflexivity |].
    split; [discriminate | intros []].
  - eexists. eexists. split; [reflexivity |].
    fold (dict_has code (kv :: d)). symmetry. apply Hin.
Qed.

Lemma window_lists_the_valid_codes_witness :
  py_truthy (available_currencies fresh_converter) = false /\
  fetch_symbols (demo_env "USD" []) (List.length (requests_made fresh_converter))
    = Some ["EUR"; "GBP"; "USD"] /\
  exists b s',
    validate_currency (demo_env "USD" []) "GBP" fresh_converter = (Ret b, s') /\
    (b = true <-> In "GBP" ["EUR"; "GBP"; "USD"]).
Proof.
  assert (H1 : py_truthy (available_currencies fresh_converter) = false)
    by reflexivity.
  assert (H2 : fetch_symbols (demo_env "USD" [])
                 (List.length (requests_made fresh_converter))
               = Some ["EUR"; "GBP"; "USD"]) by reflexivity.
  split; [exact H1 |]. split; [exact H2 |].
  exact (window_lists_the_valid_codes (demo_env "USD" []) fresh_converter _
           "GBP" H1 H2).
Defined.

(** ** What [show_history] writes *)









Lemma Forall_last_n {A : Type} (P : A -> Prop) (n : nat) (l : list A) :
  List.Forall P l -> List.Forall P (last_n n l).
Proof.
  intros H. unfold last_n.
  rewrite <- (List.firstn_skipn (List.length l - n) l) in H.
  apply List.Forall_app in H. apply H.
Qed.





(** ** What [display_available_currencies] writes *)







(** ** The command line *)

(** A property that holds of every record the loop can make from the
    amount stays true of the whole history through one round of the loop,
    however the round ends. *)
Lemma convert_one_keeps (Q : pyval -> Prop) (E : environment)
    (base target : string) (amount : float) (results : list pyval)
    (s : state) :
  (forall converted rate timestamp,
     Q (make_record base target (PFloat amount) converted rate timestamp)) ->
  history_all Q s ->
  history_all Q (snd (convert_one E base amount target results s)).
Proof.
  intros HQ Hall.
  destruct (String.eqb base target) eqn:Heq.
  - apply String.eqb_eq in Heq. subst target. rewrite convert_one_same.
    exact Hall.
  - destruct (get_exchange_rate E base target s) as [[rate | e] s1] eqn:Hrate;
      pose proof (get_exchange_rate_state _ _ _ _ _ _ Hrate) as Hs1.
    + assert (Hnone : rate = PNone \/ rate <> PNone)
        by (destruct rate; first [left; reflexivity | right; discriminate]).
      destruct Hnone as [-> | Hnone].
      * unfold convert_one. rewrite Heq. unfold bind. rewrite Hrate.
        unfold ret. subst s1. exact Hall.
      * apply String.eqb_neq in Heq.
        rewrite (convert_one_foreign E base target amount results s s1 rate
                   Heq Hrate Hnone).
        destruct (float_mul amount rate) as [converted | e];
          [| subst s1; exact Hall].
        cbv zeta.
        destruct Hall as (l & Hl & HQl).
        destruct (add_to_history_conversions (history s)
                    (make_record base target (PFloat amount) converted rate
                       (now_isoformat E (clock_reads s))) l Hl)
          as (h' & Hadd & Hh').
        rewrite Hadd. exists (last_n 10 (l ++ [make_record base target
          (PFloat amount) converted rate (now_isoformat E (clock_reads s))])).
        split; [exact Hh' |].
        apply Forall_last_n. apply List.Forall_app. split; [exact HQl |].
        constructor; [apply HQ | constructor].
    + unfold convert_one. rewrite Heq. unfold bind. rewrite Hrate.
      subst s1. exact Hall.
Qed.

Lemma for_each_target_keeps (Q : pyval -> Prop) (E : environment)
    (base : string) (amount : float) (targets : list string) :
  (forall target converted rate timestamp,
     Q (make_record base target (PFloat amount) converted rate timestamp)) ->
  forall (results : list pyval) (s : state),
    history_all Q s ->
    history_all Q (snd (for_each_target E base amount targets results s)).
Proof.
  intros HQ.
  induction targets as [| target rest IH]; intros results s Hall.
  - exact Hall.
  - simpl. unfold bind at 1.
    pose proof (convert_one_keeps Q E base target amount results s
                  (HQ target) Hall) as Hone.
    destruct (convert_one E base amount target results s)
      as [[results1 | e] s1].
    + apply IH. exact Hone.
    + exact Hone.
Qed.

Lemma convert_currency_keeps (Q : pyval -> Prop) (E : environment)
    (base : string) (targets : list string) (amount : float) (s : state) :
  (forall target converted rate timestamp,
     Q (make_record base target (PFloat amount) converted rate timestamp)) ->
  history_all Q s ->
  history_all Q (snd (convert_currency E base targets amount s)).
Proof.
  intros HQ Hall.
  unfold convert_currency. unfold bind at 1.
  destruct (validate_currency E base s) as [[valid | e] s1] eqn:Hv;
    apply validate_currency_frame in Hv as (Hh1 & _).
  - assert (Hall1 : history_all Q s1)
      by (unfold history_all in *; rewrite Hh1; exact Hall).
    destruct valid; cbn [negb]; [| exact Hall1].
    unfold bind at 1.
    destruct (invalid_targets E targets s1) as [[invalid | e] s2] eqn:Hi;
      apply invalid_targets_frame in Hi as (Hh2 & _);
      assert (Hall2 : history_all Q s2)
        by (unfold history_all in *; rewrite Hh2; exact Hall1).
    + destruct invalid as [| c invalid'].
      * apply for_each_target_keeps; assumption.
      * cbv zeta.
        destruct (filter _ targets) as [| t valid_targets]; [exact Hall2 |].
        apply for_each_target_keeps; assumption.
    + exact Hall2.
  - unfold history_all in *. simpl. rewrite Hh1. exact Hall.
Qed.

(** Listing the currencies leaves the history. *)
Lemma display_available_currencies_history (B : builtins) (E : environment)
    (s : state) :
  history (snd (display_available_currencies B E s)) = history s.
Proof.
  unfold display_available_currencies.
  destruct (get_available_currencies E s) as [[currencies | e] s'] eqn:Hget;
    apply get_available_currencies_frame in Hget as (Hh & _).
  - destruct (negb (py_truthy currencies)); [exact Hh |].
    destruct (py_items currencies); exact Hh.
  - exact Hh.
Qed.

Lemma no_negative_amount_record (base target : string) (amount : float)
    (converted rate : pyval) (timestamp : string) :
  PrimFloat.ltb amount 0 = false ->
  no_negative_amount
    (make_record base target (PFloat amount) converted rate timestamp).
Proof.
  intros H. exists amount. split; [reflexivity | exact H].
Qed.

Lemma main_loop_keeps (B : builtins) (E : environment) (n : nat) :
  forall (inputs : list string) (s : state),
    List.length inputs <= n ->
    history_all no_negative_amount s ->
    history_all no_negative_amount (snd (main_loop B E inputs s)).
Proof.
  induction n as [| n IH]; intros inputs s Hlen Hall.
  - destruct inputs; [exact Hall | simpl in Hlen; lia].
  - assert (Hshow : forall inputs',
              List.length inputs' <= n ->
              history_all no_negative_amount
                (snd (match snd (show_history B (history s)) with
                      | Some err => (Failed err, s)
                      | None => main_loop B E inputs' s
                      end))).
    { intros inputs' Hlen'.
      destruct (snd (show_history B (history s))); [exact Hall |].
      apply IH; assumption. }
    assert (Hdisplay : forall inputs',
              List.length inputs' <= n ->
              history_all no_negative_amount
                (snd (match display_available_currencies B E s with
                      | ((_, Some err), s') => (Failed err, s')
                      | ((_, None), s') => main_loop B E inputs' s'
                      end))).
    { intros inputs' Hlen'.
      pose proof (display_available_currencies_history B E s) as Hh.
      destruct (display_available_currencies B E s) as [[written how] s'].
      simpl in Hh.
      assert (Hall' : history_all no_negative_amount s')
        by (unfold history_all in *; rewrite Hh; exact Hall).
      destruct how; [exact Hall' |]. apply IH; assumption. }
    destruct inputs as [| choice inputs1]; [exact Hall |].
    simpl in Hlen. cbn [main_loop].
    destruct (String.eqb choice "4" || says B choice "exit"); [exact Hall |].
    destruct (String.eqb choice "2" || says B choice "currencies");
      [apply Hdisplay; lia |].
    destruct (String.eqb choice "3" || says B choice "history");
      [apply Hshow; lia |].
    destruct (String.eqb choice "1"); [| apply IH; [lia | exact Hall]].
    destruct inputs1 as [| base_typed inputs2]; [exact Hall |].
    simpl in Hlen. cbv zeta.
    destruct (says B (str_upper B base_typed) "exit"); [exact Hall |].
    destruct (says B (str_upper B base_typed) "currencies");
      [apply Hdisplay; lia |].
    destruct (says B (str_upper B base_typed) "history");
      [apply Hshow; lia |].
    destruct inputs2 as [| targets_typed inputs3]; [exact Hall |].
    simpl in Hlen.
    destruct (says B (str_upper B targets_typed) "exit"); [exact Hall |].
    destruct (says B (str_upper B targets_typed) "currencies");
      [apply Hdisplay; lia |].
    destruct (says B (str_upper B targets_typed) "history");
      [apply Hshow; lia |].
    destruct inputs3 as [| amount_input inputs4]; [exact Hall |].
    simpl in Hlen.
    destruct (says B amount_input "exit"); [exact Hall |].
    destruct (float_of_str B amount_input) as [amount |];
      [| apply IH; [lia | exact Hall]].
    destruct (PrimFloat.ltb amount 0) eqn:Hneg; [apply IH; [lia | exact Hall] |].
    pose proof (convert_currency_keeps no_negative_amount E
                  (str_upper B base_typed)
                  (map (str_strip B)
                     (split_commas (str_upper B targets_typed)))
                  amount s
                  (fun target converted rate timestamp =>
                     no_negative_amount_record _ target amount converted rate
                       timestamp Hneg)
                  Hall) as Hconv.
    unfold try_convert.
    destruct (convert_currency E (str_upper B base_typed) _ amount s)
      as [[results | e] s'].
    + apply IH; [lia | exact Hconv].
    + destruct (is_value_error e); [apply IH; [lia | exact Hconv] |].
      exact Hconv.
Qed.

(** X21: the command line records no negative amount.  Whatever is typed
    and whatever the service answers, when the history the loop starts
    from holds no record with an amount below zero, neither does the
    history it ends with, however it ends. *)
Theorem main_records_no_negative_amount
    (B : builtins) (E : environment) (inputs : list string) (s : state) :
  history_all no_negative_amount s ->
  history_all no_negative_amount (snd (main_loop B E inputs s)).
Proof.
  intros Hall.
  exact (main_loop_keeps B E (List.length inputs) inputs s (le_n _) Hall).
Qed.

Lemma main_records_no_negative_amount_witness :
  history_all no_negative_amount fresh_converter /\
  history_all no_negative_amount
    (snd (main_loop plain_builtins half_env demo_session fresh_converter)).
Proof.
  assert (H1 : history_all no_negative_amount fresh_converter)
    by (exists []; split; [reflexivity | constructor]).
  split; [exact H1 |].
  exact (main_records_no_negative_amount plain_builtins half_env demo_session
           fresh_converter H1).
Defined.

(** ** The exceptions of a conversion *)














